(** * Real-estate transaction orchestrator

    A shallow embedding of [models/Transaction.ts], [services/ContractService.ts]
    and [services/TransactionService.ts], and the properties of the transaction
    state machine, its aggregation rules and its audit log.

    Conventions of the embedding:
    - a JavaScript [number] holding a price or an amount is an integer [Z];
    - a [Date] is an integer instant ([Time]);
    - what the runtime hands to one call (the identifiers drawn by [uuidv4],
      the instant read by [new Date()], the locale formatting of numbers) is a
      [Host] record given to the call; all reads of the clock made during one
      call see the same instant;
    - the service mutates transaction objects in place and signals failure by
      throwing: a method body is a computation over the transaction it works
      on, which yields an [Outcome] together with the transaction as the
      throw or the return leaves it. *)

From Stdlib Require Import ZArith String Ascii List Lia.
From stdpp Require Import base option list gmap strings pretty.

Local Open Scope string_scope.

(** ** Domain model ([models/Transaction.ts]) *)

Definition Time : Type := Z.

Inductive TransactionStatus : Type :=
| INITIATED
| CONTRACT_GENERATED
| DOCUMENTS_PENDING
| DOCUMENTS_VERIFIED
| PAYMENT_PENDING
| PAYMENT_RECEIVED
| OWNERSHIP_TRANSFER_PENDING
| COMPLETED
| CANCELLED
| DISPUTED.

Inductive DocumentType : Type :=
| TITLE_DEED
| IDENTITY_SELLER
| IDENTITY_BUYER
| PURCHASE_AGREEMENT
| MORTGAGE_APPROVAL
| INSPECTION_REPORT.

Inductive PaymentMethod : Type :=
| BANK_TRANSFER
| ESCROW
| MORTGAGE.

Inductive Role : Type := SELLER | BUYER | AGENT | NOTARY.

#[global] Instance TransactionStatus_eq_dec : EqDecision TransactionStatus.
Proof. solve_decision. Defined.

#[global] Instance DocumentType_eq_dec : EqDecision DocumentType.
Proof. solve_decision. Defined.

#[global] Instance PaymentMethod_eq_dec : EqDecision PaymentMethod.
Proof. solve_decision. Defined.

(** The string value of each enumeration member, as the template strings of
    the service print it. *)
Definition statusName (s : TransactionStatus) : string :=
  match s with
  | INITIATED => "INITIATED"
  | CONTRACT_GENERATED => "CONTRACT_GENERATED"
  | DOCUMENTS_PENDING => "DOCUMENTS_PENDING"
  | DOCUMENTS_VERIFIED => "DOCUMENTS_VERIFIED"
  | PAYMENT_PENDING => "PAYMENT_PENDING"
  | PAYMENT_RECEIVED => "PAYMENT_RECEIVED"
  | OWNERSHIP_TRANSFER_PENDING => "OWNERSHIP_TRANSFER_PENDING"
  | COMPLETED => "COMPLETED"
  | CANCELLED => "CANCELLED"
  | DISPUTED => "DISPUTED"
  end.

Definition documentTypeName (t : DocumentType) : string :=
  match t with
  | TITLE_DEED => "TITLE_DEED"
  | IDENTITY_SELLER => "IDENTITY_SELLER"
  | IDENTITY_BUYER => "IDENTITY_BUYER"
  | PURCHASE_AGREEMENT => "PURCHASE_AGREEMENT"
  | MORTGAGE_APPROVAL => "MORTGAGE_APPROVAL"
  | INSPECTION_REPORT => "INSPECTION_REPORT"
  end.

Definition paymentMethodName (m : PaymentMethod) : string :=
  match m with
  | BANK_TRANSFER => "BANK_TRANSFER"
  | ESCROW => "ESCROW"
  | MORTGAGE => "MORTGAGE"
  end.

(** [DocumentType] is a key of the [Set] built by
    [areAllRequiredDocumentsVerified]; it is countable through its rank. *)
Definition documentTypeRank (t : DocumentType) : nat :=
  match t with
  | TITLE_DEED => 0
  | IDENTITY_SELLER => 1
  | IDENTITY_BUYER => 2
  | PURCHASE_AGREEMENT => 3
  | MORTGAGE_APPROVAL => 4
  | INSPECTION_REPORT => 5
  end.

Definition documentTypeOfRank (n : nat) : option DocumentType :=
  match n with
  | 0 => Some TITLE_DEED
  | 1 => Some IDENTITY_SELLER
  | 2 => Some IDENTITY_BUYER
  | 3 => Some PURCHASE_AGREEMENT
  | 4 => Some MORTGAGE_APPROVAL
  | 5 => Some INSPECTION_REPORT
  | _ => None
  end.

#[global] Instance DocumentType_countable : Countable DocumentType.
Proof.
  apply (inj_countable documentTypeRank documentTypeOfRank).
  intros []; reflexivity.
Defined.

Module GeneratedContract.
Record t : Type := mk {
    id : string;
    templateVersion : string;
    generatedAt : Time;
    propertyAddress : string;
    sellerName : string;
    buyerName : string;
    agreedPrice : Z;
    content : string;
    signedAt : option Time;
    signedBy : option string;
  }.
End GeneratedContract.

Module Property.
Record t : Type := mk {
    id : string;
    address : string;
    price : Z;
    squareMeters : Z;
    description : option string;
  }.
End Property.

Module Party.
Record t : Type := mk {
    id : string;
    name : string;
    email : string;
    phoneNumber : string;
    role : Role;
  }.
End Party.

Module Document.
Record t : Type := mk {
    id : string;
    type : DocumentType;
    uploadedBy : string;
    uploadedAt : Time;
    verified : bool;
    verifiedBy : option string;
    verifiedAt : option Time;
    notes : option string;
  }.

Definition set_verified (v : bool) (x : t) : t :=
    mk (id x) (type x) (uploadedBy x) (uploadedAt x) v (verifiedBy x)
       (verifiedAt x) (notes x).
Definition set_verifiedBy (v : option string) (x : t) : t :=
    mk (id x) (type x) (uploadedBy x) (uploadedAt x) (verified x) v
       (verifiedAt x) (notes x).
Definition set_verifiedAt (v : option Time) (x : t) : t :=
    mk (id x) (type x) (uploadedBy x) (uploadedAt x) (verified x)
       (verifiedBy x) v (notes x).
End Document.

Module Payment.
Record t : Type := mk {
    id : string;
    amount : Z;
    paidBy : string;
    paidAt : Time;
    method : PaymentMethod;
    reference : string;
    confirmed : bool;
  }.

Definition set_confirmed (v : bool) (x : t) : t :=
    mk (id x) (amount x) (paidBy x) (paidAt x) (method x) (reference x) v.
End Payment.

Module EscrowAccount.
Record t : Type := mk {
    id : string;
    balance : Z;
    heldSince : Time;
    released : bool;
  }.

Definition set_balance (v : Z) (x : t) : t :=
    mk (id x) v (heldSince x) (released x).
Definition set_released (v : bool) (x : t) : t :=
    mk (id x) (balance x) (heldSince x) v.
End EscrowAccount.

Module AuditEvent.
Record t : Type := mk {
    timestamp : Time;
    actor : string;
    action : string;
    description : string;
    previousStatus : option TransactionStatus;
    newStatus : option TransactionStatus;
  }.
End AuditEvent.

Module Transaction.
Record t : Type := mk {
    id : string;
    property : Property.t;
    seller : Party.t;
    buyer : Party.t;
    status : TransactionStatus;
    documents : list Document.t;
    payments : list Payment.t;
    escrow : option EscrowAccount.t;
    auditLog : list AuditEvent.t;
    contract : option GeneratedContract.t;
    createdAt : Time;
    updatedAt : Time;
    completedAt : option Time;
    cancelledAt : option Time;
    disputeReason : option string;
  }.

  (** Assignments to one field of the object. *)
Definition set_status (v : TransactionStatus) (x : t) : t :=
    mk (id x) (property x) (seller x) (buyer x) v (documents x) (payments x)
       (escrow x) (auditLog x) (contract x) (createdAt x) (updatedAt x)
       (completedAt x) (cancelledAt x) (disputeReason x).
Definition set_documents (v : list Document.t) (x : t) : t :=
    mk (id x) (property x) (seller x) (buyer x) (status x) v (payments x)
       (escrow x) (auditLog x) (contract x) (createdAt x) (updatedAt x)
       (completedAt x) (cancelledAt x) (disputeReason x).
Definition set_payments (v : list Payment.t) (x : t) : t :=
    mk (id x) (property x) (seller x) (buyer x) (status x) (documents x) v
       (escrow x) (auditLog x) (contract x) (createdAt x) (updatedAt x)
       (completedAt x) (cancelledAt x) (disputeReason x).
Definition set_escrow (v : option EscrowAccount.t) (x : t) : t :=
    mk (id x) (property x) (seller x) (buyer x) (status x) (documents x)
       (payments x) v (auditLog x) (contract x) (createdAt x) (updatedAt x)
       (completedAt x) (cancelledAt x) (disputeReason x).
Definition set_auditLog (v : list AuditEvent.t) (x : t) : t :=
    mk (id x) (property x) (seller x) (buyer x) (status x) (documents x)
       (payments x) (escrow x) v (contract x) (createdAt x) (updatedAt x)
       (completedAt x) (cancelledAt x) (disputeReason x).
Definition set_contract (v : option GeneratedContract.t) (x : t) : t :=
    mk (id x) (property x) (seller x) (buyer x) (status x) (documents x)
       (payments x) (escrow x) (auditLog x) v (createdAt x) (updatedAt x)
       (completedAt x) (cancelledAt x) (disputeReason x).
Definition set_updatedAt (v : Time) (x : t) : t :=
    mk (id x) (property x) (seller x) (buyer x) (status x) (documents x)
       (payments x) (escrow x) (auditLog x) (contract x) (createdAt x) v
       (completedAt x) (cancelledAt x) (disputeReason x).
Definition set_completedAt (v : option Time) (x : t) : t :=
    mk (id x) (property x) (seller x) (buyer x) (status x) (documents x)
       (payments x) (escrow x) (auditLog x) (contract x) (createdAt x)
       (updatedAt x) v (cancelledAt x) (disputeReason x).
Definition set_cancelledAt (v : option Time) (x : t) : t :=
    mk (id x) (property x) (seller x) (buyer x) (status x) (documents x)
       (payments x) (escrow x) (auditLog x) (contract x) (createdAt x)
       (updatedAt x) (completedAt x) v (disputeReason x).
Definition set_disputeReason (v : option string) (x : t) : t :=
    mk (id x) (property x) (seller x) (buyer x) (status x) (documents x)
       (payments x) (escrow x) (auditLog x) (contract x) (createdAt x)
       (updatedAt x) (completedAt x) (cancelledAt x) v.
End Transaction.

(** ** What the runtime supplies to one call *)

Record Host : Type := mkHost {
  (** the identifier drawn by the call's [uuidv4()] *)
  uuidv4 : string;
  (** the identifier drawn by [ContractService] during [initiateTransaction] *)
  contractUuid : string;
  (** the instant read by [new Date()] *)
  now : Time;
  (** [Number.prototype.toLocaleString] *)
  toLocaleString : Z → string;
  (** [Date.prototype.toISOString] *)
  toISOString : Time → string;
}.

(** ** Errors thrown by the service

    The service throws plain [Error] objects that differ by their message
    only; one constructor stands for each [throw] site, and [message] gives
    the text. *)

Inductive Error : Type :=
| TransactionNotFound (transactionId : string)
| EscrowAlreadyOpen
| InvalidStatus (operation : string) (current : TransactionStatus)
    (allowed : list TransactionStatus)
| DocumentNotFound (documentId : string)
| DocumentAlreadyVerified (documentId : string)
| AmountNotPositive
| PaymentNotFound (paymentId : string)
| PaymentAlreadyConfirmed
| CannotCancelCompleted
| CannotDisputeClosed.

Definition dquote : string := String "034"%char EmptyString.
Definition newline : string := String "010"%char EmptyString.

Fixpoint join (sep : string) (l : list string) : string :=
  match l with
  | [] => EmptyString
  | [x] => x
  | x :: rest => x ++ sep ++ join sep rest
  end.

Definition message (e : Error) : string :=
  match e with
  | TransactionNotFound i => "Transaction " ++ i ++ " not found"
  | EscrowAlreadyOpen => "Escrow already open for this transaction"
  | InvalidStatus operation current allowed =>
      "Cannot " ++ operation ++ " when status is " ++ dquote
        ++ statusName current ++ dquote ++ ". "
        ++ "Expected: " ++ join " or " (map statusName allowed)
  | DocumentNotFound i => "Document " ++ i ++ " not found"
  | DocumentAlreadyVerified i => "Document " ++ i ++ " is already verified"
  | AmountNotPositive => "Payment amount must be positive"
  | PaymentNotFound i => "Payment " ++ i ++ " not found"
  | PaymentAlreadyConfirmed => "Payment already confirmed"
  | CannotCancelCompleted => "Cannot cancel a completed transaction"
  | CannotDisputeClosed => "Cannot raise dispute on a closed transaction"
  end.

(** ** Computations over one transaction object *)

Inductive Outcome (A : Type) : Type :=
| Returned (a : A)
| Thrown (e : Error).
Arguments Returned {A} a.
Arguments Thrown {A} e.

Definition Tx (A : Type) : Type := Transaction.t → Outcome A * Transaction.t.

Definition ret {A} (a : A) : Tx A := fun tx => (Returned a, tx).

Definition bind {A B} (m : Tx A) (k : A → Tx B) : Tx B :=
  fun tx =>
    match m tx with
    | (Returned a, tx') => k a tx'
    | (Thrown e, tx') => (Thrown e, tx')
    end.

Definition throw {A} (e : Error) : Tx A := fun tx => (Thrown e, tx).

Definition get : Tx Transaction.t := fun tx => (Returned tx, tx).

Definition assign (f : Transaction.t → Transaction.t) : Tx unit :=
  fun tx => (Returned tt, f tx).

Declare Scope tx_scope.
Delimit Scope tx_scope with tx.
Bind Scope tx_scope with Tx.
Notation "'let!' x ':=' m 'in' k" := (bind m (fun x => k))
  (at level 10, x name, m at level 100, k at level 200, only parsing) : tx_scope.
Notation "m '>>' k" := (bind m (fun _ => k))
  (at level 100, k at level 200, only parsing) : tx_scope.

(** ** [ContractService] *)

Definition TEMPLATE_VERSION : string := "v2.1-AI".

Definition upperAscii (c : ascii) : ascii :=
  let n := nat_of_ascii c in
  if (97 <=? n)%nat && (n <=? 122)%nat then ascii_of_nat (n - 32) else c.

Fixpoint toUpperCase (s : string) : string :=
  match s with
  | EmptyString => EmptyString
  | String c rest => String (upperAscii c) (toUpperCase rest)
  end.

(** [s.slice(0, n)] *)
Definition slice0 (n : nat) (s : string) : string := substring 0 n s.

Definition renderTemplate (h : Host) (tx : Transaction.t) : string :=
  let p := Transaction.property tx in
  join newline
    [ "PURCHASE AGREEMENT";
      "──────────────────────────────────────────";
      "Property : " ++ Property.address p;
      "           " ++ pretty (Property.squareMeters p) ++ " m²  |  "
        ++ default EmptyString (Property.description p);
      "Seller   : " ++ Party.name (Transaction.seller tx) ++ " <"
        ++ Party.email (Transaction.seller tx) ++ ">";
      "Buyer    : " ++ Party.name (Transaction.buyer tx) ++ " <"
        ++ Party.email (Transaction.buyer tx) ++ ">";
      "Price    : €" ++ toLocaleString h (Property.price p);
      "Date     : " ++ slice0 10 (toISOString h (now h));
      "──────────────────────────────────────────";
      "This agreement is auto-generated and legally binding upon e-signature";
      "by both parties. Funds will be held in escrow until deed transfer." ].

Definition generateContract (h : Host) (tx : Transaction.t) : GeneratedContract.t :=
  {| GeneratedContract.id := "CONTRACT-" ++ toUpperCase (slice0 8 (contractUuid h));
     GeneratedContract.templateVersion := TEMPLATE_VERSION;
     GeneratedContract.generatedAt := now h;
     GeneratedContract.propertyAddress := Property.address (Transaction.property tx);
     GeneratedContract.sellerName := Party.name (Transaction.seller tx);
     GeneratedContract.buyerName := Party.name (Transaction.buyer tx);
     GeneratedContract.agreedPrice := Property.price (Transaction.property tx);
     GeneratedContract.content := renderTemplate h tx;
     GeneratedContract.signedAt := None;
     GeneratedContract.signedBy := None |}.

(** ** [TransactionService] *)

Definition REQUIRED_DOCUMENTS : list DocumentType :=
  [TITLE_DEED; IDENTITY_SELLER; IDENTITY_BUYER; PURCHASE_AGREEMENT].

(** *** Private helpers *)

Definition addAuditEvent (h : Host) (actor action description : string)
    (previousStatus newStatus : option TransactionStatus) : Tx unit :=
  assign (fun tx =>
    Transaction.set_auditLog
      (Transaction.auditLog tx ++
         [ {| AuditEvent.timestamp := now h;
              AuditEvent.actor := actor;
              AuditEvent.action := action;
              AuditEvent.description := description;
              AuditEvent.previousStatus := previousStatus;
              AuditEvent.newStatus := newStatus |} ])
      tx).

Definition transitionStatus (h : Host) (newStatus : TransactionStatus)
    (actor : string) : Tx unit :=
  (let! tx := get in
   let prev := Transaction.status tx in
   assign (Transaction.set_status newStatus) >>
   assign (Transaction.set_updatedAt (now h)) >>
   addAuditEvent h actor "STATUS_CHANGED"
     ("Status: " ++ statusName prev ++ " → " ++ statusName newStatus)
     (Some prev) (Some newStatus))%tx.

Definition assertStatus (allowed : list TransactionStatus) (operation : string)
    : Tx unit :=
  (let! tx := get in
   if bool_decide (Transaction.status tx ∈ allowed) then ret tt
   else throw (InvalidStatus operation (Transaction.status tx) allowed))%tx.

Definition areAllRequiredDocumentsVerified (tx : Transaction.t) : bool :=
  let uploadedAndVerified : gset DocumentType :=
    list_to_set
      (Document.type <$> filter (fun d => Document.verified d = true)
                                (Transaction.documents tx)) in
  forallb (fun type => bool_decide (type ∈ uploadedAndVerified)) REQUIRED_DOCUMENTS.

(** Mutation of the object held at index [i] of [tx.documents] (resp.
    [tx.payments]): [find] returned a reference to that element. *)
Definition mutateDocument (i : nat) (f : Document.t → Document.t) : Tx unit :=
  assign (fun tx =>
    Transaction.set_documents (alter f i (Transaction.documents tx)) tx).

Definition mutatePayment (i : nat) (f : Payment.t → Payment.t) : Tx unit :=
  assign (fun tx =>
    Transaction.set_payments (alter f i (Transaction.payments tx)) tx).

Definition mutateEscrow (f : EscrowAccount.t → EscrowAccount.t) : Tx unit :=
  assign (fun tx => Transaction.set_escrow (f <$> Transaction.escrow tx) tx).

(** [tx.payments.filter(p => p.confirmed).reduce((sum, p) => sum + p.amount, 0)] *)
Definition totalConfirmed (payments : list Payment.t) : Z :=
  fold_left (fun sum p => (sum + Payment.amount p)%Z)
    (filter (fun p => Payment.confirmed p = true) payments) 0%Z.

(** *** Method bodies, after [const tx = this.getTransaction(transactionId)] *)

Definition openEscrow_body (h : Host) (actor : string) : Tx EscrowAccount.t :=
  (let! tx := get in
   if Transaction.escrow tx is Some _ then throw EscrowAlreadyOpen
   else
     let escrow :=
       {| EscrowAccount.id := uuidv4 h;
          EscrowAccount.balance := 0;
          EscrowAccount.heldSince := now h;
          EscrowAccount.released := false |} in
     assign (Transaction.set_escrow (Some escrow)) >>
     assign (Transaction.set_updatedAt (now h)) >>
     addAuditEvent h actor "ESCROW_OPENED"
       ("Escrow account " ++ EscrowAccount.id escrow ++ " opened") None None >>
     ret escrow)%tx.

Definition uploadDocument_body (h : Host) (documentType : DocumentType)
    (uploadedBy : string) (notes : option string) : Tx Document.t :=
  (assertStatus [DOCUMENTS_PENDING] "upload documents" >>
   let document :=
     {| Document.id := uuidv4 h;
        Document.type := documentType;
        Document.uploadedBy := uploadedBy;
        Document.uploadedAt := now h;
        Document.verified := false;
        Document.verifiedBy := None;
        Document.verifiedAt := None;
        Document.notes := notes |} in
   assign (fun tx =>
     Transaction.set_documents (Transaction.documents tx ++ [document]) tx) >>
   assign (Transaction.set_updatedAt (now h)) >>
   addAuditEvent h uploadedBy "DOCUMENT_UPLOADED"
     ("Document " ++ dquote ++ documentTypeName documentType ++ dquote
        ++ " uploaded (id: " ++ Document.id document ++ ")") None None >>
   ret document)%tx.

Definition verifyDocument_body (h : Host) (documentId verifiedBy : string)
    : Tx unit :=
  (let! tx := get in
   match list_find (fun d => Document.id d = documentId)
                   (Transaction.documents tx) with
   | None => throw (DocumentNotFound documentId)
   | Some (i, doc) =>
       if Document.verified doc then throw (DocumentAlreadyVerified documentId)
       else
         mutateDocument i (Document.set_verified true) >>
         mutateDocument i (Document.set_verifiedBy (Some verifiedBy)) >>
         mutateDocument i (Document.set_verifiedAt (Some (now h))) >>
         assign (Transaction.set_updatedAt (now h)) >>
         addAuditEvent h verifiedBy "DOCUMENT_VERIFIED"
           ("Document " ++ dquote ++ documentTypeName (Document.type doc)
              ++ dquote ++ " verified by " ++ verifiedBy) None None >>
         let! tx := get in
         if areAllRequiredDocumentsVerified tx then
           transitionStatus h DOCUMENTS_VERIFIED verifiedBy >>
           transitionStatus h PAYMENT_PENDING "SYSTEM"
         else ret tt
   end)%tx.

Definition processPayment_body (h : Host) (amount : Z) (paidBy : string)
    (method : PaymentMethod) (reference : string) : Tx Payment.t :=
  (assertStatus [PAYMENT_PENDING] "process payment" >>
   if (amount <=? 0)%Z then throw AmountNotPositive
   else
     let payment :=
       {| Payment.id := uuidv4 h;
          Payment.amount := amount;
          Payment.paidBy := paidBy;
          Payment.paidAt := now h;
          Payment.method := method;
          Payment.reference := reference;
          Payment.confirmed := false |} in
     assign (fun tx =>
       Transaction.set_payments (Transaction.payments tx ++ [payment]) tx) >>
     assign (Transaction.set_updatedAt (now h)) >>
     addAuditEvent h paidBy "PAYMENT_SUBMITTED"
       ("Payment of €" ++ toLocaleString h amount ++ " submitted via "
          ++ paymentMethodName method ++ " (ref: " ++ reference ++ ")")
       None None >>
     let! tx := get in
     (if bool_decide (method = ESCROW) && bool_decide (is_Some (Transaction.escrow tx))
      then
        mutateEscrow (fun e =>
          EscrowAccount.set_balance (EscrowAccount.balance e + amount) e) >>
        addAuditEvent h "SYSTEM" "ESCROW_FUNDED"
          ("€" ++ toLocaleString h amount ++ " deposited into escrow") None None
      else ret tt) >>
     ret payment)%tx.

Definition confirmPayment_body (h : Host) (paymentId confirmedBy : string)
    : Tx unit :=
  (let! tx := get in
   match list_find (fun p => Payment.id p = paymentId)
                   (Transaction.payments tx) with
   | None => throw (PaymentNotFound paymentId)
   | Some (i, payment) =>
       if Payment.confirmed payment then throw PaymentAlreadyConfirmed
       else
         mutatePayment i (Payment.set_confirmed true) >>
         assign (Transaction.set_updatedAt (now h)) >>
         addAuditEvent h confirmedBy "PAYMENT_CONFIRMED"
           ("Payment " ++ paymentId ++ " confirmed by " ++ confirmedBy)
           None None >>
         let! tx := get in
         if (Property.price (Transaction.property tx)
               <=? totalConfirmed (Transaction.payments tx))%Z then
           transitionStatus h PAYMENT_RECEIVED confirmedBy >>
           transitionStatus h OWNERSHIP_TRANSFER_PENDING "SYSTEM"
         else ret tt
   end)%tx.

Definition completeOwnershipTransfer_body (h : Host) (notaryId : string)
    : Tx unit :=
  (assertStatus [OWNERSHIP_TRANSFER_PENDING] "complete transfer" >>
   let! tx := get in
   (match Transaction.escrow tx with
    | Some e =>
        if negb (EscrowAccount.released e) then
          mutateEscrow (EscrowAccount.set_released true) >>
          addAuditEvent h notaryId "ESCROW_RELEASED"
            ("Escrow funds (€" ++ toLocaleString h (EscrowAccount.balance e)
               ++ ") released to seller") None None
        else ret tt
    | None => ret tt
    end) >>
   transitionStatus h COMPLETED notaryId >>
   assign (Transaction.set_completedAt (Some (now h))) >>
   let! tx := get in
   addAuditEvent h notaryId "OWNERSHIP_TRANSFERRED"
     ("Property " ++ dquote ++ Property.address (Transaction.property tx)
        ++ dquote ++ " transferred from " ++ Party.name (Transaction.seller tx)
        ++ " to " ++ Party.name (Transaction.buyer tx)) None None)%tx.

Definition cancelTransaction_body (h : Host) (actor reason : string) : Tx unit :=
  (let! tx := get in
   if bool_decide (Transaction.status tx = COMPLETED) then
     throw CannotCancelCompleted
   else
     transitionStatus h CANCELLED actor >>
     assign (Transaction.set_cancelledAt (Some (now h))) >>
     addAuditEvent h actor "TRANSACTION_CANCELLED" ("Cancelled: " ++ reason)
       None None)%tx.

Definition raiseDispute_body (h : Host) (actor reason : string) : Tx unit :=
  (let! tx := get in
   if bool_decide (Transaction.status tx ∈ [COMPLETED; CANCELLED]) then
     throw CannotDisputeClosed
   else
     assign (Transaction.set_disputeReason (Some reason)) >>
     transitionStatus h DISPUTED actor >>
     addAuditEvent h actor "DISPUTE_RAISED" ("Dispute: " ++ reason) None None)%tx.

Definition resolveDispute_body (h : Host) (actor resolution : string) : Tx unit :=
  (assertStatus [DISPUTED] "resolve dispute" >>
   assign (Transaction.set_disputeReason None) >>
   transitionStatus h OWNERSHIP_TRANSFER_PENDING actor >>
   addAuditEvent h actor "DISPUTE_RESOLVED" ("Resolution: " ++ resolution)
     None None)%tx.

(** *** The service: the map of transactions and its public methods *)

Abbreviation Store := (gmap string Transaction.t).

Definition Service (A : Type) : Type := Store → Outcome A * Store.

Definition getTransaction (transactionId : string) (s : Store)
    : Outcome Transaction.t :=
  match s !! transactionId with
  | Some tx => Returned tx
  | None => Thrown (TransactionNotFound transactionId)
  end.

Definition getAuditLog (transactionId : string) (s : Store)
    : Outcome (list AuditEvent.t) :=
  match getTransaction transactionId s with
  | Returned tx => Returned (Transaction.auditLog tx)
  | Thrown e => Thrown e
  end.

(** A method fetches the transaction object and then works on that object:
    whatever the body did to it before returning or throwing is what the map
    holds afterwards. *)
Definition onTransaction {A} (transactionId : string) (body : Tx A) : Service A :=
  fun s =>
    match getTransaction transactionId s with
    | Thrown e => (Thrown e, s)
    | Returned tx =>
        let '(r, tx') := body tx in (r, <[transactionId := tx']> s)
    end.

Definition initiateTransaction (h : Host) (property : Property.t)
    (seller buyer : Party.t) (s : Store) : Transaction.t * Store :=
  let transaction :=
    {| Transaction.id := uuidv4 h;
       Transaction.property := property;
       Transaction.seller := seller;
       Transaction.buyer := buyer;
       Transaction.status := INITIATED;
       Transaction.documents := [];
       Transaction.payments := [];
       Transaction.escrow := None;
       Transaction.auditLog := [];
       Transaction.contract := None;
       Transaction.createdAt := now h;
       Transaction.updatedAt := now h;
       Transaction.completedAt := None;
       Transaction.cancelledAt := None;
       Transaction.disputeReason := None |} in
  let body : Tx unit :=
    (addAuditEvent h "SYSTEM" "TRANSACTION_INITIATED"
       ("Transaction created for property at " ++ Property.address property)
       None None >>
     let! tx := get in
     let contract := generateContract h tx in
     assign (Transaction.set_contract (Some contract)) >>
     transitionStatus h CONTRACT_GENERATED "SYSTEM" >>
     addAuditEvent h "SYSTEM" "CONTRACT_GENERATED"
       ("Purchase agreement auto-generated (id: " ++ GeneratedContract.id contract
          ++ ", template: " ++ GeneratedContract.templateVersion contract ++ ")")
       None None >>
     transitionStatus h DOCUMENTS_PENDING "SYSTEM")%tx in
  let tx' := snd (body transaction) in
  (tx', <[Transaction.id transaction := tx']> s).

Definition openEscrow (h : Host) (transactionId actor : string)
    : Service EscrowAccount.t :=
  onTransaction transactionId (openEscrow_body h actor).

Definition uploadDocument (h : Host) (transactionId : string)
    (documentType : DocumentType) (uploadedBy : string) (notes : option string)
    : Service Document.t :=
  onTransaction transactionId (uploadDocument_body h documentType uploadedBy notes).

Definition verifyDocument (h : Host) (transactionId documentId verifiedBy : string)
    : Service unit :=
  onTransaction transactionId (verifyDocument_body h documentId verifiedBy).

Definition processPayment (h : Host) (transactionId : string) (amount : Z)
    (paidBy : string) (method : PaymentMethod) (reference : string)
    : Service Payment.t :=
  onTransaction transactionId (processPayment_body h amount paidBy method reference).

Definition confirmPayment (h : Host) (transactionId paymentId confirmedBy : string)
    : Service unit :=
  onTransaction transactionId (confirmPayment_body h paymentId confirmedBy).

Definition completeOwnershipTransfer (h : Host) (transactionId notaryId : string)
    : Service unit :=
  onTransaction transactionId (completeOwnershipTransfer_body h notaryId).

Definition cancelTransaction (h : Host) (transactionId actor reason : string)
    : Service unit :=
  onTransaction transactionId (cancelTransaction_body h actor reason).

Definition raiseDispute (h : Host) (transactionId actor reason : string)
    : Service unit :=
  onTransaction transactionId (raiseDispute_body h actor reason).

Definition resolveDispute (h : Host) (transactionId actor resolution : string)
    : Service unit :=
  onTransaction transactionId (resolveDispute_body h actor resolution).

(** ** Calls and histories *)

(** The nine mutating operations on an existing transaction. *)
Inductive Call : Type :=
| OpenEscrow (transactionId actor : string)
| UploadDocument (transactionId : string) (documentType : DocumentType)
    (uploadedBy : string) (notes : option string)
| VerifyDocument (transactionId documentId verifiedBy : string)
| ProcessPayment (transactionId : string) (amount : Z) (paidBy : string)
    (method : PaymentMethod) (reference : string)
| ConfirmPayment (transactionId paymentId confirmedBy : string)
| CompleteOwnershipTransfer (transactionId notaryId : string)
| CancelTransaction (transactionId actor reason : string)
| RaiseDispute (transactionId actor reason : string)
| ResolveDispute (transactionId actor resolution : string).

Definition callTarget (c : Call) : string :=
  match c with
  | OpenEscrow i _ | UploadDocument i _ _ _ | VerifyDocument i _ _
  | ProcessPayment i _ _ _ _ | ConfirmPayment i _ _
  | CompleteOwnershipTransfer i _ | CancelTransaction i _ _
  | RaiseDispute i _ _ | ResolveDispute i _ _ => i
  end.

(** The value a method returns is dropped: only success or the error thrown
    is kept. *)
Definition forget {A} (m : Tx A) : Tx unit := bind m (fun _ => ret tt).

Definition callBody (h : Host) (c : Call) : Tx unit :=
  match c with
  | OpenEscrow _ actor => forget (openEscrow_body h actor)
  | UploadDocument _ ty by_ notes => forget (uploadDocument_body h ty by_ notes)
  | VerifyDocument _ d by_ => verifyDocument_body h d by_
  | ProcessPayment _ a by_ m r => forget (processPayment_body h a by_ m r)
  | ConfirmPayment _ p by_ => confirmPayment_body h p by_
  | CompleteOwnershipTransfer _ n => completeOwnershipTransfer_body h n
  | CancelTransaction _ a r => cancelTransaction_body h a r
  | RaiseDispute _ a r => raiseDispute_body h a r
  | ResolveDispute _ a r => resolveDispute_body h a r
  end.

(** The error a method call ends with, if any. *)
Definition thrown {A} (r : Outcome A) : option Error :=
  match r with
  | Returned _ => None
  | Thrown e => Some e
  end.

Definition invoke (h : Host) (c : Call) : Service unit :=
  onTransaction (callTarget c) (callBody h c).

(** A request to the service: the creation of a transaction or one of the
    nine calls, with what the runtime supplies to it. *)
Inductive Request : Type :=
| Initiate (h : Host) (property : Property.t) (seller buyer : Party.t)
| Invoke (h : Host) (c : Call).

Definition handle (r : Request) (s : Store) : Store :=
  match r with
  | Initiate h property seller buyer =>
      snd (initiateTransaction h property seller buyer s)
  | Invoke h c => snd (invoke h c s)
  end.

(** Requests are served one after the other; a request that throws leaves
    the service running. *)
Definition serve (history : list Request) (s : Store) : Store :=
  fold_left (fun s r => handle r s) history s.

Definition reachable (s : Store) : Prop :=
  ∃ history : list Request, s = serve history ∅.

(** ** [NotaryAgentService] *)

Definition AI_NOTARY_ID : string := "ai-notary-agent-v1".

(** Confidence values are two-decimal literals; they are kept in hundredths,
    which preserves their order. *)
Definition CONFIDENCE_THRESHOLDS (t : DocumentType) : Z :=
  match t with
  | TITLE_DEED => 95
  | IDENTITY_SELLER => 97
  | IDENTITY_BUYER => 97
  | PURCHASE_AGREEMENT => 92
  | MORTGAGE_APPROVAL => 93
  | INSPECTION_REPORT => 90
  end.

Definition MOCK_SCORES (t : DocumentType) : Z :=
  match t with
  | TITLE_DEED => 98
  | IDENTITY_SELLER => 99
  | IDENTITY_BUYER => 99
  | PURCHASE_AGREEMENT => 97
  | MORTGAGE_APPROVAL => 96
  | INSPECTION_REPORT => 94
  end.

(** What [verifyAllDocuments] throws: its own rejection, or whatever the
    service throws. *)
Inductive AgentError : Type :=
| DocumentRejected (type : DocumentType) (score threshold : Z)
| ServiceFailure (e : Error).

(** [for (const doc of tx.documents)], from position [i] on. The array is
    the one the service holds: each turn reads the element as the turns
    before left it, and [service.verifyDocument] looks the document up again
    by its identifier. The call made for position [k] is served by
    [hosts k]. *)
Fixpoint verifyFrom (hosts : nat → Host) (fuel i : nat) (tx : Transaction.t)
    : option AgentError * Transaction.t :=
  match fuel with
  | O => (None, tx)
  | S fuel' =>
      match Transaction.documents tx !! i with
      | None => (None, tx)
      | Some doc =>
          if Document.verified doc then verifyFrom hosts fuel' (S i) tx
          else
            let score := MOCK_SCORES (Document.type doc) in
            let threshold := CONFIDENCE_THRESHOLDS (Document.type doc) in
            if (score <? threshold)%Z then
              (Some (DocumentRejected (Document.type doc) score threshold), tx)
            else
              match verifyDocument_body (hosts i) (Document.id doc)
                      AI_NOTARY_ID tx with
              | (Thrown e, tx') => (Some (ServiceFailure e), tx')
              | (Returned _, tx') => verifyFrom hosts fuel' (S i) tx'
              end
      end
  end.

(** [None]: the agent returned. The loop makes one turn per document. *)
Definition verifyAllDocuments (hosts : nat → Host) (transactionId : string)
    (s : Store) : option AgentError * Store :=
  match getTransaction transactionId s with
  | Thrown e => (Some (ServiceFailure e), s)
  | Returned tx =>
      let '(r, tx') :=
        verifyFrom hosts (length (Transaction.documents tx)) 0 tx in
      (r, <[transactionId := tx']> s)
  end.

(** ** Vocabulary of the properties *)

(** [walks E p events q]: read in order, the [STATUS_CHANGED] events of
    [events] lead from phase [p] to phase [q]; each of them carries the phase
    it leaves and the phase it enters, and that step is an edge of [E].
    Events with another action are passed over. *)
Inductive walks (E : TransactionStatus → TransactionStatus → Prop)
    : TransactionStatus → list AuditEvent.t → TransactionStatus → Prop :=
| walks_nil p : walks E p [] p
| walks_change e p n rest q :
    AuditEvent.action e = "STATUS_CHANGED" →
    AuditEvent.previousStatus e = Some p →
    AuditEvent.newStatus e = Some n →
    E p n →
    walks E n rest q →
    walks E p (e :: rest) q
| walks_other e p rest q :
    AuditEvent.action e ≠ "STATUS_CHANGED" →
    walks E p rest q →
    walks E p (e :: rest) q.

Definition anyStep (_ _ : TransactionStatus) : Prop := True.

(** The events trace the phase from [p] to [q], whatever the steps are. *)
Definition traces : TransactionStatus → list AuditEvent.t → TransactionStatus → Prop :=
  walks anyStep.

(** [e] is the record of a transition from [p] to [n]. *)
Definition isTransition (e : AuditEvent.t) (p n : TransactionStatus) : Prop :=
  AuditEvent.action e = "STATUS_CHANGED" ∧
  AuditEvent.previousStatus e = Some p ∧
  AuditEvent.newStatus e = Some n.

(** The transition table of the specification (section 4.1), to compare the
    service with. *)
Definition tableEdge (a b : TransactionStatus) : bool :=
  match a, b with
  | INITIATED, CONTRACT_GENERATED
  | CONTRACT_GENERATED, DOCUMENTS_PENDING
  | DOCUMENTS_PENDING, DOCUMENTS_VERIFIED
  | DOCUMENTS_VERIFIED, PAYMENT_PENDING
  | PAYMENT_PENDING, PAYMENT_RECEIVED
  | PAYMENT_RECEIVED, OWNERSHIP_TRANSFER_PENDING
  | OWNERSHIP_TRANSFER_PENDING, COMPLETED
  | DOCUMENTS_PENDING, CANCELLED
  | PAYMENT_PENDING, CANCELLED
  | DOCUMENTS_PENDING, DISPUTED
  | PAYMENT_PENDING, DISPUTED
  | OWNERSHIP_TRANSFER_PENDING, DISPUTED
  | DISPUTED, OWNERSHIP_TRANSFER_PENDING => true
  | _, _ => false
  end.

(** The edges [cancelTransaction] and [raiseDispute] add to the table: the
    first guards against [COMPLETED] only, the second against [COMPLETED] and
    [CANCELLED] only. *)
Definition guardEdge (a b : TransactionStatus) : bool :=
  match a, b with
  | OWNERSHIP_TRANSFER_PENDING, CANCELLED
  | DISPUTED, CANCELLED
  | CANCELLED, CANCELLED
  | DISPUTED, DISPUTED => true
  | _, _ => false
  end.

Definition serviceEdge (a b : TransactionStatus) : Prop :=
  tableEdge a b || guardEdge a b = true.

(** The phases a transaction is in between two requests. *)
Definition atRest (p : TransactionStatus) : bool :=
  match p with
  | DOCUMENTS_PENDING | PAYMENT_PENDING | OWNERSHIP_TRANSFER_PENDING
  | COMPLETED | CANCELLED | DISPUTED => true
  | _ => false
  end.

(** [verifyDocument] called in [DOCUMENTS_PENDING] and [confirmPayment]
    called in [PAYMENT_PENDING]; no condition on the other calls. *)
Definition inPhase (c : Call) (tx : Transaction.t) : Prop :=
  match c with
  | VerifyDocument _ _ _ => Transaction.status tx = DOCUMENTS_PENDING
  | ConfirmPayment _ _ _ => Transaction.status tx = PAYMENT_PENDING
  | _ => True
  end.


(** Some document of kind [k] is verified. *)
Definition hasVerified (k : DocumentType) (docs : list Document.t) : Prop :=
  ∃ d, d ∈ docs ∧ Document.type d = k ∧ Document.verified d = true.


(** The document that [find] returns for [documentId] is [d], the element at
    index [k]; likewise for payments. *)
Definition findsDocument (documentId : string) (k : nat) (d : Document.t)
    (tx : Transaction.t) : Prop :=
  list_find (fun x => Document.id x = documentId) (Transaction.documents tx)
  = Some (k, d).

Definition findsPayment (paymentId : string) (k : nat) (p : Payment.t)
    (tx : Transaction.t) : Prop :=
  list_find (fun x => Payment.id x = paymentId) (Transaction.payments tx)
  = Some (k, p).

(** The three assignments [verifyDocument] makes to the document found. *)
Definition markVerified (verifiedBy : string) (at_ : Time) (d : Document.t)
    : Document.t :=
  Document.set_verifiedAt (Some at_)
    (Document.set_verifiedBy (Some verifiedBy) (Document.set_verified true d)).

(** The request creates a transaction under identifier [i]. *)
Definition creates (i : string) (r : Request) : Prop :=
  match r with
  | Initiate h _ _ _ => uuidv4 h = i
  | Invoke _ _ => False
  end.

(** No request of the history draws identifier [i] again for a new
    transaction. *)
Definition keeps (i : string) (history : list Request) : Prop :=
  Forall (fun r => ¬ creates i r) history.

(** What no call assigns: the identifier, the property, the parties, the
    contract and the date of creation. *)
Definition sameIdentity (tx tx' : Transaction.t) : Prop :=
  Transaction.id tx' = Transaction.id tx ∧
  Transaction.property tx' = Transaction.property tx ∧
  Transaction.seller tx' = Transaction.seller tx ∧
  Transaction.buyer tx' = Transaction.buyer tx ∧
  Transaction.contract tx' = Transaction.contract tx ∧
  Transaction.createdAt tx' = Transaction.createdAt tx.

(** [d'] is [d], possibly verified since; a verified document is final. *)
Definition sameDocument (d d' : Document.t) : Prop :=
  Document.id d' = Document.id d ∧
  Document.type d' = Document.type d ∧
  Document.uploadedBy d' = Document.uploadedBy d ∧
  Document.uploadedAt d' = Document.uploadedAt d ∧
  Document.notes d' = Document.notes d ∧
  (Document.verified d = true → d' = d).

(** [p'] is [p], possibly confirmed since; a confirmed payment is final. *)
Definition samePayment (p p' : Payment.t) : Prop :=
  Payment.id p' = Payment.id p ∧
  Payment.amount p' = Payment.amount p ∧
  Payment.paidBy p' = Payment.paidBy p ∧
  Payment.paidAt p' = Payment.paidAt p ∧
  Payment.method p' = Payment.method p ∧
  Payment.reference p' = Payment.reference p ∧
  (Payment.confirmed p = true → p' = p).

(** [tx'] is [tx] with every document and payment still at its position. *)
Definition grownFrom (tx tx' : Transaction.t) : Prop :=
  sameIdentity tx tx' ∧
  (∀ k d, Transaction.documents tx !! k = Some d →
          ∃ d', Transaction.documents tx' !! k = Some d' ∧ sameDocument d d') ∧
  (∀ k p, Transaction.payments tx !! k = Some p →
          ∃ p', Transaction.payments tx' !! k = Some p' ∧ samePayment p p').

(** The contract a transaction carries is the one generated for its
    property and parties, and it is unsigned. *)
Definition contractMatches (tx : Transaction.t) : Prop :=
  ∃ c,
    Transaction.contract tx = Some c ∧
    GeneratedContract.templateVersion c = TEMPLATE_VERSION ∧
    GeneratedContract.propertyAddress c
      = Property.address (Transaction.property tx) ∧
    GeneratedContract.agreedPrice c = Property.price (Transaction.property tx) ∧
    GeneratedContract.sellerName c = Party.name (Transaction.seller tx) ∧
    GeneratedContract.buyerName c = Party.name (Transaction.buyer tx) ∧
    GeneratedContract.signedAt c = None ∧
    GeneratedContract.signedBy c = None.

(** The number of events of the log with action [a]. *)
Definition countAction (a : string) (log : list AuditEvent.t) : nat :=
  length (filter (fun e => AuditEvent.action e = a) log).

(** The optional fields, the escrow account and the log agree with the
    phase. *)
Definition marksAgree (tx : Transaction.t) : Prop :=
  (Transaction.status tx = COMPLETED → is_Some (Transaction.completedAt tx)) ∧
  (Transaction.status tx = CANCELLED → is_Some (Transaction.cancelledAt tx)) ∧
  (Transaction.status tx = DISPUTED → is_Some (Transaction.disputeReason tx)) ∧
  countAction "ESCROW_OPENED" (Transaction.auditLog tx)
  = (if Transaction.escrow tx is Some _ then 1 else 0)%nat ∧
  countAction "ESCROW_RELEASED" (Transaction.auditLog tx)
  = (match Transaction.escrow tx with
     | Some e => if EscrowAccount.released e then 1 else 0
     | None => 0
     end)%nat ∧
  (∀ e, Transaction.escrow tx = Some e → EscrowAccount.released e = true →
        is_Some (Transaction.completedAt tx)).


(** The identifiers drawn for the transactions a history creates. *)
Definition created (history : list Request) : gset string :=
  list_to_set
    (omap (fun r => match r with
                    | Initiate h _ _ _ => Some (uuidv4 h)
                    | Invoke _ _ => None
                    end) history).

(** The party on whose behalf a call is made. *)
Definition callActor (c : Call) : string :=
  match c with
  | OpenEscrow _ actor => actor
  | UploadDocument _ _ uploadedBy _ => uploadedBy
  | VerifyDocument _ _ verifiedBy => verifiedBy
  | ProcessPayment _ _ paidBy _ _ => paidBy
  | ConfirmPayment _ _ confirmedBy => confirmedBy
  | CompleteOwnershipTransfer _ notaryId => notaryId
  | CancelTransaction _ actor _ => actor
  | RaiseDispute _ actor _ => actor
  | ResolveDispute _ actor _ => actor
  end.

(** The verification marks of a document agree with its flag. *)
Definition marked (d : Document.t) : Prop :=
  if Document.verified d
  then is_Some (Document.verifiedBy d) ∧ is_Some (Document.verifiedAt d)
  else Document.verifiedBy d = None ∧ Document.verifiedAt d = None.

(** What the agent leaves of the document at position [k]. *)
Definition agentMark (hosts : nat → Host) (k : nat) (d : Document.t)
    : Document.t :=
  if Document.verified d then d
  else markVerified AI_NOTARY_ID (now (hosts k)) d.

Definition allVerified (docs : list Document.t) : Prop :=
  Forall (fun d => Document.verified d = true) docs.

(** *** The claims that fail, as they are stated *)

(** Every recorded transition of a transaction is an edge of the table. *)
Definition logWithinTable (tx : Transaction.t) : Prop :=
  ∀ e p n, e ∈ Transaction.auditLog tx → isTransition e p n → tableEdge p n = true.

Definition phasesFollowTable : Prop :=
  ∀ s i tx, reachable s → s !! i = Some tx → logWithinTable tx.



(** A call that appends a [STATUS_CHANGED] event has changed the phase, and
    the event does not go from a phase to itself. *)
Definition statusChangedMeansChange : Prop :=
  ∀ s h c tx tx' e,
    reachable s →
    s !! callTarget c = Some tx →
    (invoke h c s).2 !! callTarget c = Some tx' →
    e ∈ drop (length (Transaction.auditLog tx)) (Transaction.auditLog tx') →
    AuditEvent.action e = "STATUS_CHANGED" →
    Transaction.status tx' ≠ Transaction.status tx ∨
    AuditEvent.previousStatus e ≠ AuditEvent.newStatus e.

(** ** Scenarios *)

Module Scenario.

(** A host that draws [uuid] at instant [t] and prints numbers in plain
    decimal. *)
Definition host (uuid : string) (t : Time) : Host :=
  {| uuidv4 := uuid;
     contractUuid := "c0ffee00-" ++ uuid;
     now := t;
     toLocaleString := pretty;
     toISOString := pretty |}.
Arguments host uuid%_string t%_Z.

Definition house : Property.t :=
  {| Property.id := "prop-1";
     Property.address := "12 Harbour Street";
     Property.price := 350000;
     Property.squareMeters := 120;
     Property.description := None |}.

Definition seller : Party.t :=
  {| Party.id := "seller-1"; Party.name := "Sanna"; Party.email := "sanna@example.org";
     Party.phoneNumber := "+358401"; Party.role := SELLER |}.

Definition buyer : Party.t :=
  {| Party.id := "buyer-1"; Party.name := "Bilal"; Party.email := "bilal@example.org";
     Party.phoneNumber := "+358402"; Party.role := BUYER |}.

(** A transaction with the four required documents uploaded. *)
Definition uploaded : list Request :=
  [ Initiate (host "tx-1" 1) house seller buyer;
    Invoke (host "doc-1" 2) (UploadDocument "tx-1" TITLE_DEED "seller-1" None);
    Invoke (host "doc-2" 3) (UploadDocument "tx-1" IDENTITY_SELLER "seller-1" None);
    Invoke (host "doc-3" 4) (UploadDocument "tx-1" IDENTITY_BUYER "buyer-1" None);
    Invoke (host "doc-4" 5) (UploadDocument "tx-1" PURCHASE_AGREEMENT "seller-1" None) ].

Definition threeVerified : list Request :=
  (uploaded ++
   [ Invoke (host "-" 6) (VerifyDocument "tx-1" "doc-1" "notary-1");
     Invoke (host "-" 7) (VerifyDocument "tx-1" "doc-2" "notary-1");
     Invoke (host "-" 8) (VerifyDocument "tx-1" "doc-3" "notary-1") ])%list.

(** All four verified: the transaction awaits payment. *)
Definition awaitingPayment : list Request :=
  (threeVerified ++
   [ Invoke (host "-" 9) (VerifyDocument "tx-1" "doc-4" "notary-1") ])%list.

(** The price submitted through escrow, not confirmed yet. *)
Definition paymentSubmitted : list Request :=
  (awaitingPayment ++
   [ Invoke (host "esc-1" 10) (OpenEscrow "tx-1" "system");
     Invoke (host "pay-1" 11)
       (ProcessPayment "tx-1" 350000 "buyer-1" ESCROW "FI-BANK-1") ])%list.

(** Paid, confirmed and transferred. *)
Definition completed : list Request :=
  (paymentSubmitted ++
   [ Invoke (host "-" 12) (ConfirmPayment "tx-1" "pay-1" "bank-1");
     Invoke (host "-" 13) (CompleteOwnershipTransfer "tx-1" "notary-1") ])%list.

(** Cancelled while the fourth document is still unverified. *)
Definition cancelledLate : list Request :=
  (threeVerified ++
   [ Invoke (host "-" 9) (CancelTransaction "tx-1" "buyer-1" "Buyer changed mind") ])%list.

(** The cancellation scenario of the demo: escrow opened, two of the four
    documents uploaded, then cancelled. *)
Definition cancelledEarly : list Request :=
  [ Initiate (host "tx-1" 1) house seller buyer;
    Invoke (host "esc-1" 2) (OpenEscrow "tx-1" "system");
    Invoke (host "doc-1" 3) (UploadDocument "tx-1" TITLE_DEED "seller-1" None);
    Invoke (host "doc-2" 4) (UploadDocument "tx-1" IDENTITY_BUYER "buyer-1" None);
    Invoke (host "-" 5) (CancelTransaction "tx-1" "buyer-1" "Buyer changed mind") ].


(** The same, cancelled a second time. *)
Definition cancelledTwice : list Request :=
  (cancelledEarly ++
   [ Invoke (host "-" 6) (CancelTransaction "tx-1" "buyer-1" "Once more") ])%list.

(** Cancelled while a submitted payment is still unconfirmed. *)
Definition cancelledUnconfirmed : list Request :=
  (paymentSubmitted ++
   [ Invoke (host "-" 12) (CancelTransaction "tx-1" "buyer-1" "Buyer changed mind") ])%list.

(** Paid by bank transfer and transferred, no escrow account ever opened. *)
Definition completedByTransfer : list Request :=
  (awaitingPayment ++
   [ Invoke (host "pay-1" 10)
       (ProcessPayment "tx-1" 350000 "buyer-1" BANK_TRANSFER "FI-BANK-1");
     Invoke (host "-" 11) (ConfirmPayment "tx-1" "pay-1" "bank-1");
     Invoke (host "-" 12) (CompleteOwnershipTransfer "tx-1" "notary-1") ])%list.


(** Requests made after the first document of [uploaded] is verified. *)
Definition afterFirstVerification : list Request :=
  [ Invoke (host "-" 7) (VerifyDocument "tx-1" "doc-2" "notary-1");
    Invoke (host "doc-5" 8) (UploadDocument "tx-1" INSPECTION_REPORT "buyer-1" None);
    Initiate (host "tx-2" 9) house seller buyer;
    Invoke (host "-" 10) (RaiseDispute "tx-1" "buyer-1" "Roof leaks") ].

(** Requests made after the payment of [paymentSubmitted] is confirmed. *)
Definition afterConfirmation : list Request :=
  [ Invoke (host "-" 13) (RaiseDispute "tx-1" "seller-1" "Amount seems incorrect");
    Invoke (host "-" 14) (ResolveDispute "tx-1" "system" "Payment is correct") ].

(** A transaction just initiated. *)
Definition initiated : list Request :=
  [ Initiate (host "tx-1" 1) house seller buyer ].

(** Payment awaited, the escrow account open. *)
Definition escrowOpened : list Request :=
  (awaitingPayment ++
   [ Invoke (host "esc-1" 10) (OpenEscrow "tx-1" "system") ])%list.

(** The price paid through escrow and confirmed: the transfer is pending. *)
Definition transferPending : list Request :=
  (paymentSubmitted ++
   [ Invoke (host "-" 12) (ConfirmPayment "tx-1" "pay-1" "bank-1") ])%list.

(** Requests made once payment is awaited: a late upload, a second escrow
    account, the price by bank transfer, its confirmation. *)
Definition afterVerification : list Request :=
  [ Invoke (host "doc-5" 11)
      (UploadDocument "tx-1" INSPECTION_REPORT "buyer-1" None);
    Invoke (host "esc-2" 12) (OpenEscrow "tx-1" "system");
    Invoke (host "pay-1" 13)
      (ProcessPayment "tx-1" 350000 "buyer-1" BANK_TRANSFER "FI-BANK-1");
    Invoke (host "-" 14) (ConfirmPayment "tx-1" "pay-1" "bank-1") ].

(** The hosts of the calls the agent makes, one per document. *)
Definition agentHosts (k : nat) : Host := host "-" (20 + Z.of_nat k).

End Scenario.

(** ** Method bodies: what a call does to the transaction object *)

(** Exposes the sequence of assignments and tests a body is made of. *)
Ltac unfold_tx :=
  cbv [callBody forget openEscrow_body uploadDocument_body verifyDocument_body
       processPayment_body confirmPayment_body completeOwnershipTransfer_body
       cancelTransaction_body raiseDispute_body resolveDispute_body
       assertStatus transitionStatus addAuditEvent mutateDocument mutatePayment
       mutateEscrow bind ret throw get assign] in *.

Ltac walks_tac :=
  repeat first
    [ apply walks_nil
    | eapply walks_change; [reflexivity | reflexivity | reflexivity | | ]
    | apply walks_other; [discriminate | ] ].

(** The transaction stored under [tx-1] after a history, evaluated. *)
Ltac stored_in history name :=
  let o := eval vm_compute in (serve history ∅ !! "tx-1") in
  match o with Some ?x => pose (name := x) end.

(** No request of a given history creates a transaction anew. *)
Ltac keeps_tac :=
  repeat (apply Forall_cons; split;
            [first [exact (fun x => x) | intros Hsame; by vm_compute in Hsame] |]);
  exact (List.Forall_nil _).

Lemma walks_app E p l1 q l2 r :
  walks E p l1 q → walks E q l2 r → walks E p (l1 ++ l2)%list r.
Proof.
  induction 1 as [| e p n rest q Ha Hp Hn He _ IH | e p rest q Ha _ IH];
    intros H2; simpl.
  - exact H2.
  - eapply walks_change; eauto.
  - apply walks_other; auto.
Qed.

Lemma walks_weaken (E E' : TransactionStatus → TransactionStatus → Prop) p l q :
  (∀ a b, E a b → E' a b) → walks E p l q → walks E' p l q.
Proof.
  intros HE. induction 1.
  - apply walks_nil.
  - eapply walks_change; eauto.
  - apply walks_other; auto.
Qed.

(** Every event of a walk that records a transition records an edge. *)
Lemma walks_edges E p l q e a b :
  walks E p l q → e ∈ l → isTransition e a b → E a b.
Proof.
  induction 1 as [| e' p n rest q Ha Hp Hn He _ IH | e' p rest q Ha _ IH];
    intros Hin (Hact & Hprev & Hnew).
  - by apply elem_of_nil in Hin.
  - apply elem_of_cons in Hin as [-> | Hin].
    + congruence.
    + apply IH; [done | by repeat split].
  - apply elem_of_cons in Hin as [-> | Hin].
    + congruence.
    + apply IH; [done | by repeat split].
Qed.

(** A body that throws has not touched the object. *)
Lemma callBody_thrown h c tx e tx' :
  callBody h c tx = (Thrown e, tx') → tx' = tx.
Proof.
  destruct c; unfold_tx; intros H; repeat case_match; simplify_eq; done.
Qed.

(** A body appends to the audit log, and the [STATUS_CHANGED] events it
    appends trace the phase from its value before the call to its value
    after. *)
Lemma callBody_log h c tx :
  ∃ added,
    Transaction.auditLog (callBody h c tx).2
      = (Transaction.auditLog tx ++ added)%list ∧
    traces (Transaction.status tx) added (Transaction.status (callBody h c tx).2).
Proof.
  unfold traces.
  destruct c; unfold_tx; repeat case_match; simplify_eq; simpl;
    first [ by (exists []; split; [by rewrite app_nil_r | apply walks_nil])
          | eexists; split;
            [ rewrite <- ?app_assoc; reflexivity
            | simpl; walks_tac; exact I ] ].
Qed.

(** Settles the tests on a phase that is known. *)
Ltac settle_tests :=
  repeat match goal with
         | H : bool_decide _ = _ |- _ =>
             vm_compute in H; try discriminate H; clear H
         end.

(** Between two requests a transaction is in one of six phases. *)
Lemma callBody_atRest h c tx :
  atRest (Transaction.status tx) = true →
  atRest (Transaction.status (callBody h c tx).2) = true.
Proof.
  intros Hrest.
  destruct c; unfold_tx; repeat case_match; simplify_eq; simpl;
    first [ exact Hrest | reflexivity ].
Qed.

(** In phase, a body moves along the edges of the service only. *)
Lemma callBody_edges h c tx :
  inPhase c tx →
  atRest (Transaction.status tx) = true →
  ∃ added,
    Transaction.auditLog (callBody h c tx).2
      = (Transaction.auditLog tx ++ added)%list ∧
    walks serviceEdge (Transaction.status tx) added
      (Transaction.status (callBody h c tx).2).
Proof.
  unfold serviceEdge.
  intros Hphase Hrest.
  destruct c; simpl in Hphase; unfold_tx;
    destruct (Transaction.status tx) eqn:Hs;
    try discriminate Hrest; try discriminate Hphase;
    repeat case_match; simplify_eq; simpl; settle_tests; rewrite ?Hs;
    first [ by (exists []; split; [by rewrite app_nil_r | apply walks_nil])
          | eexists; split;
            [ rewrite <- ?app_assoc; reflexivity
            | simpl; walks_tac; reflexivity ] ].
Qed.

(** *** Creation *)

Lemma initiateTransaction_result h property seller buyer s :
  ∃ tx,
    initiateTransaction h property seller buyer s = (tx, <[uuidv4 h := tx]> s) ∧
    Transaction.id tx = uuidv4 h ∧
    Transaction.status tx = DOCUMENTS_PENDING ∧
    Transaction.documents tx = [] ∧
    Transaction.payments tx = [] ∧
    Transaction.escrow tx = None ∧
    walks serviceEdge INITIATED (Transaction.auditLog tx) DOCUMENTS_PENDING.
Proof.
  eexists. split; [reflexivity |].
  repeat split. unfold serviceEdge. simpl. walks_tac; reflexivity.
Qed.

(** ** The map of transactions *)

Lemma invoke_unknown h c (s : Store) :
  s !! callTarget c = None →
  invoke h c s = (Thrown (TransactionNotFound (callTarget c)), s).
Proof.
  intros Hnone. unfold invoke, onTransaction, getTransaction. by rewrite Hnone.
Qed.

Lemma invoke_known h c (s : Store) tx :
  s !! callTarget c = Some tx →
  invoke h c s
    = ((callBody h c tx).1, <[callTarget c := (callBody h c tx).2]> s).
Proof.
  intros Hsome. unfold invoke, onTransaction, getTransaction. rewrite Hsome.
  by destruct (callBody h c tx).
Qed.

Lemma onTransaction_known {A} i (body : Tx A) (s : Store) tx :
  s !! i = Some tx →
  onTransaction i body s = ((body tx).1, <[i := (body tx).2]> s).
Proof.
  intros Hsome. unfold onTransaction, getTransaction. rewrite Hsome.
  by destruct (body tx).
Qed.

Lemma onTransaction_unknown {A} i (body : Tx A) (s : Store) :
  s !! i = None →
  onTransaction i body s = (Thrown (TransactionNotFound i), s).
Proof.
  intros Hnone. unfold onTransaction, getTransaction. by rewrite Hnone.
Qed.

(** A request that does not create [i] anew leaves the transaction stored
    under [i] as it is or as the body of a call leaves it. *)
Lemma handle_lookup r (s : Store) i tx :
  ¬ creates i r →
  s !! i = Some tx →
  handle r s !! i = Some tx ∨
  ∃ h c, handle r s !! i = Some (callBody h c tx).2.
Proof.
  intros Hfresh Hsome.
  destruct r as [h property seller buyer | h c]; simpl in Hfresh; unfold handle.
  - left. destruct (initiateTransaction_result h property seller buyer s)
      as (tx0 & -> & _). simpl.
    by rewrite lookup_insert_ne.
  - destruct (s !! callTarget c) as [tx1 |] eqn:Htarget.
    + rewrite (invoke_known _ _ _ _ Htarget). simpl.
      destruct (decide (callTarget c = i)) as [<- | Hne].
      * right. exists h, c. rewrite lookup_insert_eq. congruence.
      * left. by rewrite lookup_insert_ne.
    + left. by rewrite (invoke_unknown _ _ _ Htarget).
Qed.

Lemma serve_app history1 history2 (s : Store) :
  serve (history1 ++ history2) s = serve history2 (serve history1 s).
Proof. apply fold_left_app. Qed.

(** What every call body preserves holds of a transaction as long as its
    identifier is not drawn again. *)
Lemma serve_preserves (P : Transaction.t → Prop) i :
  (∀ h c tx, P tx → P (callBody h c tx).2) →
  ∀ history (s : Store) tx,
    keeps i history →
    s !! i = Some tx →
    P tx →
    ∃ tx', serve history s !! i = Some tx' ∧ P tx'.
Proof.
  intros Hstep. induction history as [| r history IH]; intros s tx Hkeeps Hsome HP.
  - exists tx. by split.
  - apply Forall_cons in Hkeeps as [Hr Hkeeps]. simpl.
    destruct (handle_lookup r s i tx Hr Hsome) as [Hsame | (h & c & Hcall)].
    + by apply (IH _ tx).
    + apply (IH _ (callBody h c tx).2); auto.
Qed.

(** What creation establishes and every call body preserves holds of every
    transaction of a reachable map. *)
Lemma reachable_invariant (P : Transaction.t → Prop) :
  (∀ h property seller buyer s,
     P (initiateTransaction h property seller buyer s).1) →
  (∀ h c tx, P tx → P (callBody h c tx).2) →
  ∀ s i tx, reachable s → s !! i = Some tx → P tx.
Proof.
  intros Hinit Hstep s i tx [history ->]. revert i tx.
  induction history as [| r history IH] using rev_ind; intros i tx.
  - simpl. by rewrite lookup_empty.
  - rewrite serve_app. cbn [serve fold_left].
    destruct r as [h property seller buyer | h c]; unfold handle.
    + specialize (Hinit h property seller buyer (serve history ∅)).
      destruct (initiateTransaction_result h property seller buyer
                  (serve history ∅)) as (tx0 & Heq & _).
      rewrite Heq in *. simpl in *.
      destruct (decide (uuidv4 h = i)) as [<- | Hne].
      * rewrite lookup_insert_eq. congruence.
      * rewrite lookup_insert_ne by done. apply IH.
    + destruct (serve history ∅ !! callTarget c) as [tx1 |] eqn:Htarget.
      * rewrite (invoke_known _ _ _ _ Htarget). simpl.
        destruct (decide (callTarget c = i)) as [<- | Hne].
        -- rewrite lookup_insert_eq. intros [= <-]. apply Hstep. by eapply IH.
        -- rewrite lookup_insert_ne by done. apply IH.
      * rewrite (invoke_unknown _ _ _ Htarget). apply IH.
Qed.

Lemma reachable_serve history : reachable (serve history ∅).
Proof. by exists history. Qed.

Lemma reachable_atRest s i tx :
  reachable s → s !! i = Some tx → atRest (Transaction.status tx) = true.
Proof.
  apply (reachable_invariant (fun tx => atRest (Transaction.status tx) = true)).
  - reflexivity.
  - apply callBody_atRest.
Qed.

(** A set of phases closed under the edges is never left. *)
Lemma walks_stays E (S : TransactionStatus → Prop) p l q :
  (∀ a b, S a → E a b → S b) → walks E p l q → S p → S q.
Proof.
  intros Hclosed. induction 1; eauto.
Qed.

(** ** Documents and payments: found once, flipped once *)

Section FindAlter.
Context {A : Type} (P : A → Prop) `{!∀ x, Decision (P x)} (f : A → A).
Hypothesis f_keeps : ∀ x, P (f x) ↔ P x.

(** Changing the element found, in a way the search cannot see, leaves it
    the element found. *)
Lemma list_find_alter_same l k x :
  list_find P l = Some (k, x) → list_find P (alter f k l) = Some (k, f x).
Proof.
  rewrite !list_find_Some. intros (Hk & HP & Hfirst). repeat split.
  - by rewrite list_lookup_alter_eq, Hk.
  - by apply f_keeps.
  - intros j y Hj Hlt. rewrite list_lookup_alter_ne in Hj by lia. eauto.
Qed.

Lemma list_find_alter_other l j k x :
  j ≠ k → list_find P l = Some (k, x) → list_find P (alter f j l) = Some (k, x).
Proof.
  rewrite !list_find_Some. intros Hne (Hk & HP & Hfirst). repeat split.
  - by rewrite list_lookup_alter_ne.
  - done.
  - intros j' y Hj' Hlt. destruct (decide (j = j')) as [<- | Hne'].
    + rewrite list_lookup_alter_eq in Hj'.
      destruct (l !! j) as [z |] eqn:Hz; [| done]. simpl in Hj'.
      injection Hj' as <-. rewrite f_keeps. eauto.
    + rewrite list_lookup_alter_ne in Hj' by done. eauto.
Qed.
End FindAlter.

Lemma alter_markVerified verifiedBy at_ k (l : list Document.t) :
  alter (Document.set_verifiedAt (Some at_)) k
    (alter (Document.set_verifiedBy (Some verifiedBy)) k
       (alter (Document.set_verified true) k l))
  = alter (markVerified verifiedBy at_) k l.
Proof. by rewrite !list_alter_alter_eq. Qed.

(** A call leaves the documents as they are, appends an unverified one, or
    marks as verified the unverified document that [find] returns. *)
Lemma callBody_documents h c tx :
  Transaction.documents (callBody h c tx).2 = Transaction.documents tx ∨
  (∃ d, Document.verified d = false ∧
        Transaction.documents (callBody h c tx).2
          = (Transaction.documents tx ++ [d])%list) ∨
  (∃ documentId verifiedBy j d,
     list_find (fun x => Document.id x = documentId) (Transaction.documents tx)
       = Some (j, d) ∧
     Document.verified d = false ∧
     Transaction.documents (callBody h c tx).2
       = alter (markVerified verifiedBy (now h)) j (Transaction.documents tx)).
Proof.
  destruct c; unfold_tx; repeat case_match; simplify_eq; simpl;
    first [ by left
          | right; left; eexists; split; [| reflexivity]; reflexivity
          | right; right; do 4 eexists;
            split; [eassumption |]; split; [eassumption |];
            apply alter_markVerified ].
Qed.

(** The same for payments: unchanged, one unconfirmed payment appended, or
    the unconfirmed payment that [find] returns confirmed. *)
Lemma callBody_payments h c tx :
  Transaction.payments (callBody h c tx).2 = Transaction.payments tx ∨
  (∃ p, Payment.confirmed p = false ∧
        Transaction.payments (callBody h c tx).2
          = (Transaction.payments tx ++ [p])%list) ∨
  (∃ paymentId j p,
     list_find (fun x => Payment.id x = paymentId) (Transaction.payments tx)
       = Some (j, p) ∧
     Payment.confirmed p = false ∧
     Transaction.payments (callBody h c tx).2
       = alter (Payment.set_confirmed true) j (Transaction.payments tx)).
Proof.
  destruct c; unfold_tx; repeat case_match; simplify_eq; simpl;
    first [ by left
          | right; left; eexists; split; [| reflexivity]; reflexivity
          | right; right; do 3 eexists;
            split; [eassumption |]; split; [eassumption |]; reflexivity ].
Qed.

(** A verified document stays the one found for its identifier, untouched. *)
Lemma callBody_findsDocument documentId k d h c tx :
  Document.verified d = true →
  findsDocument documentId k d tx →
  findsDocument documentId k d (callBody h c tx).2.
Proof.
  unfold findsDocument. intros Hv Hfind.
  destruct (callBody_documents h c tx)
    as [-> | [(d' & _ & ->) | (i' & by_ & j & d' & Hj & Hd' & ->)]].
  - done.
  - by apply list_find_app_l.
  - apply list_find_alter_other; [done | | done].
    intros ->. apply list_find_Some in Hfind as (Hk & _).
    apply list_find_Some in Hj as (Hk' & _). congruence.
Qed.

Lemma callBody_findsPayment paymentId k p h c tx :
  Payment.confirmed p = true →
  findsPayment paymentId k p tx →
  findsPayment paymentId k p (callBody h c tx).2.
Proof.
  unfold findsPayment. intros Hv Hfind.
  destruct (callBody_payments h c tx)
    as [-> | [(p' & _ & ->) | (i' & j & p' & Hj & Hp' & ->)]].
  - done.
  - by apply list_find_app_l.
  - apply list_find_alter_other; [done | | done].
    intros ->. apply list_find_Some in Hfind as (Hk & _).
    apply list_find_Some in Hj as (Hk' & _). congruence.
Qed.

(** A successful [verifyDocument] found an unverified document and marked
    it. *)
Lemma verifyDocument_body_returned h documentId verifiedBy tx :
  (verifyDocument_body h documentId verifiedBy tx).1 = Returned tt →
  ∃ k d,
    findsDocument documentId k d tx ∧
    Document.verified d = false ∧
    findsDocument documentId k (markVerified verifiedBy (now h) d)
      (verifyDocument_body h documentId verifiedBy tx).2.
Proof.
  unfold findsDocument. unfold_tx.
  destruct (list_find _ _) as [[k d] |] eqn:Hfind; [| discriminate].
  destruct (Document.verified d) eqn:Hd; [discriminate |].
  intros _. exists k, d. split; [done |]. split; [done |].
  assert (Hdocs : list_find (λ x, Document.id x = documentId)
            (alter (markVerified verifiedBy (now h)) k (Transaction.documents tx))
            = Some (k, markVerified verifiedBy (now h) d))
    by by apply list_find_alter_same.
  rewrite <- alter_markVerified in Hdocs.
  case_match; simpl; by apply Hdocs.
Qed.

Lemma confirmPayment_body_returned h paymentId confirmedBy tx :
  (confirmPayment_body h paymentId confirmedBy tx).1 = Returned tt →
  ∃ k p,
    findsPayment paymentId k p tx ∧
    Payment.confirmed p = false ∧
    findsPayment paymentId k (Payment.set_confirmed true p)
      (confirmPayment_body h paymentId confirmedBy tx).2.
Proof.
  unfold findsPayment. unfold_tx.
  destruct (list_find _ _) as [[k p] |] eqn:Hfind; [| discriminate].
  destruct (Payment.confirmed p) eqn:Hp; [discriminate |].
  intros _. exists k, p. split; [done |]. split; [done |].
  assert (Hpays : list_find (λ x, Payment.id x = paymentId)
            (alter (Payment.set_confirmed true) k (Transaction.payments tx))
            = Some (k, Payment.set_confirmed true p))
    by by apply list_find_alter_same.
  case_match; simpl; by apply Hpays.
Qed.

Lemma verifyDocument_body_again h documentId verifiedBy k d tx :
  findsDocument documentId k d tx →
  Document.verified d = true →
  verifyDocument_body h documentId verifiedBy tx
  = (Thrown (DocumentAlreadyVerified documentId), tx).
Proof.
  unfold findsDocument. intros Hfind Hd. unfold_tx. by rewrite Hfind, Hd.
Qed.

Lemma confirmPayment_body_again h paymentId confirmedBy k p tx :
  findsPayment paymentId k p tx →
  Payment.confirmed p = true →
  confirmPayment_body h paymentId confirmedBy tx
  = (Thrown PaymentAlreadyConfirmed, tx).
Proof.
  unfold findsPayment. intros Hfind Hp. unfold_tx. by rewrite Hfind, Hp.
Qed.

(** ** The escrow balance *)






(** ** Required documents *)

Lemma areAllRequiredDocumentsVerified_iff tx :
  areAllRequiredDocumentsVerified tx = true ↔
  hasVerified TITLE_DEED (Transaction.documents tx) ∧
  hasVerified IDENTITY_SELLER (Transaction.documents tx) ∧
  hasVerified IDENTITY_BUYER (Transaction.documents tx) ∧
  hasVerified PURCHASE_AGREEMENT (Transaction.documents tx).
Proof.
  assert (Hkind : ∀ k,
            bool_decide
              (k ∈ (list_to_set
                      (Document.type <$> filter (fun d => Document.verified d = true)
                                           (Transaction.documents tx))
                    : gset DocumentType)) = true
            ↔ hasVerified k (Transaction.documents tx)).
  { intros k. rewrite bool_decide_eq_true, elem_of_list_to_set, list_elem_of_fmap.
    unfold hasVerified. split.
    - intros (d & -> & Hd). apply list_elem_of_filter in Hd as [Hv Hd]. eauto.
    - intros (d & Hd & <- & Hv). exists d. split; [done |].
      by apply list_elem_of_filter. }
  unfold areAllRequiredDocumentsVerified, REQUIRED_DOCUMENTS.
  cbn [forallb]. rewrite !andb_true_iff, !Hkind. tauto.
Qed.

(** While a transaction is in [DOCUMENTS_PENDING], some required kind still
    lacks a verified document. *)
Lemma callBody_pending_incomplete h c tx :
  (Transaction.status tx = DOCUMENTS_PENDING →
   areAllRequiredDocumentsVerified tx = false) →
  Transaction.status (callBody h c tx).2 = DOCUMENTS_PENDING →
  areAllRequiredDocumentsVerified (callBody h c tx).2 = false.
Proof.
  intros Hbefore.
  destruct c; unfold_tx; repeat case_match; simplify_eq; simpl in *;
    try discriminate; try exact Hbefore; try (intros _; assumption).
  intros Hstatus. specialize (Hbefore Hstatus).
  unfold areAllRequiredDocumentsVerified in *. simpl in *.
  rewrite filter_app, filter_cons_False, filter_nil, app_nil_r
    by (simpl; congruence).
  exact Hbefore.
Qed.

Lemma reachable_pending_incomplete s i tx :
  reachable s → s !! i = Some tx →
  Transaction.status tx = DOCUMENTS_PENDING →
  areAllRequiredDocumentsVerified tx = false.
Proof.
  apply (reachable_invariant
           (fun tx => Transaction.status tx = DOCUMENTS_PENDING →
                      areAllRequiredDocumentsVerified tx = false)).
  - reflexivity.
  - apply callBody_pending_incomplete.
Qed.

(** ** Calls and the public methods *)

Lemma onTransaction_forget {A} i (body : Tx A) (s : Store) :
  thrown (onTransaction i (forget body) s).1 = thrown (onTransaction i body s).1 ∧
  (onTransaction i (forget body) s).2 = (onTransaction i body s).2.
Proof.
  unfold onTransaction, getTransaction, forget, bind, ret.
  destruct (s !! i) as [tx |]; [| done].
  by destruct (body tx) as [[a | e] tx'].
Qed.

(** [invoke] is the public method of the call, its returned value dropped. *)
Lemma invoke_public h c (s : Store) :
  match c with
  | OpenEscrow i actor =>
      thrown (invoke h c s).1 = thrown (openEscrow h i actor s).1 ∧
      (invoke h c s).2 = (openEscrow h i actor s).2
  | UploadDocument i ty by_ notes =>
      thrown (invoke h c s).1 = thrown (uploadDocument h i ty by_ notes s).1 ∧
      (invoke h c s).2 = (uploadDocument h i ty by_ notes s).2
  | VerifyDocument i d by_ => invoke h c s = verifyDocument h i d by_ s
  | ProcessPayment i a by_ m r =>
      thrown (invoke h c s).1 = thrown (processPayment h i a by_ m r s).1 ∧
      (invoke h c s).2 = (processPayment h i a by_ m r s).2
  | ConfirmPayment i p by_ => invoke h c s = confirmPayment h i p by_ s
  | CompleteOwnershipTransfer i n =>
      invoke h c s = completeOwnershipTransfer h i n s
  | CancelTransaction i a r => invoke h c s = cancelTransaction h i a r s
  | RaiseDispute i a r => invoke h c s = raiseDispute h i a r s
  | ResolveDispute i a r => invoke h c s = resolveDispute h i a r s
  end.
Proof.
  destruct c; try reflexivity; apply onTransaction_forget.
Qed.

(** ** The claims *)

(** *** Failure leaves no trace *)

(** C5. Every one of the nine operations is atomic on failure: whatever the
    map of transactions is, if the call throws, the map is afterwards exactly
    what it was before the call (every transaction with its phase, documents,
    payments, escrow account, audit log, timestamps and dispute reason). *)
Theorem failed_call_changes_nothing h c (s s' : Store) e :
  invoke h c s = (Thrown e, s') → s' = s.
Proof.
  intros Hthrown.
  destruct (s !! callTarget c) as [tx |] eqn:Htarget.
  - rewrite (invoke_known _ _ _ _ Htarget) in Hthrown.
    destruct (callBody h c tx) as [r tx'] eqn:Hbody. simpl in Hthrown.
    injection Hthrown as -> <-.
    apply callBody_thrown in Hbody as ->.
    by apply insert_id.
  - rewrite (invoke_unknown _ _ _ Htarget) in Hthrown. congruence.
Qed.

(** A payment submitted while the documents are still pending is refused,
    and nothing has changed. *)
Lemma failed_call_changes_nothing_witness :
  (invoke (Scenario.host "pay-1" 6)
          (ProcessPayment "tx-1" 350000 "buyer-1" BANK_TRANSFER "FI-BANK-1")
          (serve Scenario.uploaded ∅)).2
  = serve Scenario.uploaded ∅.
Proof.
  eapply (failed_call_changes_nothing
            (Scenario.host "pay-1" 6)
            (ProcessPayment "tx-1" 350000 "buyer-1" BANK_TRANSFER "FI-BANK-1")
            (serve Scenario.uploaded ∅) _
            (InvalidStatus "process payment" DOCUMENTS_PENDING [PAYMENT_PENDING])).
  vm_compute. reflexivity.
Defined.

(** *** Escrow may be opened in any phase *)

(** C10. [openEscrow] looks at no phase. It throws exactly when the
    identifier is unknown or the transaction already has an escrow account;
    otherwise, whatever the phase, it succeeds, gives the transaction an
    account with balance 0 that is not released, appends one [ESCROW_OPENED]
    event and leaves the phase, the documents and the payments as they are. *)
Theorem openEscrow_ignores_phase h i actor (s : Store) :
  (s !! i = None →
   openEscrow h i actor s = (Thrown (TransactionNotFound i), s)) ∧
  (∀ tx, s !! i = Some tx → is_Some (Transaction.escrow tx) →
   openEscrow h i actor s = (Thrown EscrowAlreadyOpen, s)) ∧
  (∀ tx, s !! i = Some tx → Transaction.escrow tx = None →
   ∃ e tx' ev,
     openEscrow h i actor s = (Returned e, <[i := tx']> s) ∧
     EscrowAccount.balance e = 0%Z ∧
     EscrowAccount.released e = false ∧
     Transaction.escrow tx' = Some e ∧
     Transaction.status tx' = Transaction.status tx ∧
     Transaction.auditLog tx' = (Transaction.auditLog tx ++ [ev])%list ∧
     AuditEvent.action ev = "ESCROW_OPENED" ∧
     Transaction.documents tx' = Transaction.documents tx ∧
     Transaction.payments tx' = Transaction.payments tx) ∧
  ((∃ e, (openEscrow h i actor s).1 = Thrown e) ↔
   (s !! i = None ∨ ∃ tx, s !! i = Some tx ∧ is_Some (Transaction.escrow tx))).
Proof.
  unfold openEscrow.
  assert (Hunknown : s !! i = None →
            onTransaction i (openEscrow_body h actor) s
              = (Thrown (TransactionNotFound i), s))
    by apply onTransaction_unknown.
  assert (Hopen : ∀ tx, s !! i = Some tx → is_Some (Transaction.escrow tx) →
            onTransaction i (openEscrow_body h actor) s
              = (Thrown EscrowAlreadyOpen, s)).
  { intros tx Hsome [e He]. rewrite (onTransaction_known _ _ _ _ Hsome).
    unfold_tx. rewrite He. simpl. f_equal. by apply insert_id. }
  assert (Hfree : ∀ tx, s !! i = Some tx → Transaction.escrow tx = None →
            ∃ e tx' ev,
              onTransaction i (openEscrow_body h actor) s
                = (Returned e, <[i := tx']> s) ∧
              EscrowAccount.balance e = 0%Z ∧
              EscrowAccount.released e = false ∧
              Transaction.escrow tx' = Some e ∧
              Transaction.status tx' = Transaction.status tx ∧
              Transaction.auditLog tx' = (Transaction.auditLog tx ++ [ev])%list ∧
              AuditEvent.action ev = "ESCROW_OPENED" ∧
              Transaction.documents tx' = Transaction.documents tx ∧
              Transaction.payments tx' = Transaction.payments tx).
  { intros tx Hsome Hnone. rewrite (onTransaction_known _ _ _ _ Hsome).
    unfold_tx. rewrite Hnone. simpl. do 3 eexists. repeat split. }
  repeat split; try assumption.
  - intros [e He]. destruct (s !! i) as [tx |] eqn:Hsome; [| by left].
    right. exists tx. split; [done |].
    destruct (Transaction.escrow tx) as [e0 |] eqn:Hesc; [by eexists |].
    destruct (Hfree tx eq_refl Hesc) as (e1 & tx' & ev & Heq & _).
    rewrite Heq in He. discriminate.
  - intros [Hnone | (tx & Hsome & Hesc)].
    + rewrite (Hunknown Hnone). by eexists.
    + rewrite (Hopen tx Hsome Hesc). by eexists.
Qed.

(** An escrow account is opened on a transaction that is already
    [COMPLETED]; the phase stays [COMPLETED]. *)
Lemma openEscrow_ignores_phase_witness :
  ∃ tx,
    serve Scenario.completedByTransfer ∅ !! "tx-1" = Some tx ∧
    Transaction.status tx = COMPLETED ∧
    Transaction.escrow tx = None ∧
    ∃ e tx' ev,
      openEscrow (Scenario.host "esc-9" 20) "tx-1" "system"
        (serve Scenario.completedByTransfer ∅)
      = (Returned e, <["tx-1" := tx']> (serve Scenario.completedByTransfer ∅)) ∧
      EscrowAccount.balance e = 0%Z ∧
      EscrowAccount.released e = false ∧
      Transaction.escrow tx' = Some e ∧
      Transaction.status tx' = Transaction.status tx ∧
      Transaction.auditLog tx' = (Transaction.auditLog tx ++ [ev])%list ∧
      AuditEvent.action ev = "ESCROW_OPENED" ∧
      Transaction.documents tx' = Transaction.documents tx ∧
      Transaction.payments tx' = Transaction.payments tx.
Proof.
  eexists. split; [vm_compute; reflexivity |].
  split; [reflexivity |]. split; [reflexivity |].
  apply (proj1 (proj2 (proj2
           (openEscrow_ignores_phase (Scenario.host "esc-9" 20) "tx-1" "system"
              (serve Scenario.completedByTransfer ∅))))).
  - vm_compute. reflexivity.
  - reflexivity.
Defined.

(** *** The audit log and the phase *)

(** C4 (amended). The audit log only grows, and it records every assignment
    of the phase: [transitionStatus] sets the phase and appends exactly one
    [STATUS_CHANGED] event carrying the phase before and the phase assigned;
    the [STATUS_CHANGED] events a call appends, read in order, lead from the
    phase before the call to the phase after it; and the [STATUS_CHANGED]
    events of the whole log of a reachable transaction lead from [INITIATED]
    to its current phase. An assignment may assign the phase the transaction
    is already in; its event then has equal previous and new phase. *)
Theorem audit_log_traces_phase :
  (∀ h newStatus actor tx,
     ∃ e tx',
       transitionStatus h newStatus actor tx = (Returned tt, tx') ∧
       Transaction.status tx' = newStatus ∧
       Transaction.auditLog tx' = (Transaction.auditLog tx ++ [e])%list ∧
       isTransition e (Transaction.status tx) newStatus) ∧
  (∀ h c (s : Store) tx,
     s !! callTarget c = Some tx →
     ∃ tx' added,
       (invoke h c s).2 !! callTarget c = Some tx' ∧
       Transaction.auditLog tx' = (Transaction.auditLog tx ++ added)%list ∧
       traces (Transaction.status tx) added (Transaction.status tx')) ∧
  (∀ s i tx,
     reachable s → s !! i = Some tx →
     traces INITIATED (Transaction.auditLog tx) (Transaction.status tx)).
Proof.
  split; [| split].
  - intros h newStatus actor tx. do 2 eexists. unfold_tx. simpl.
    repeat split.
  - intros h c s tx Hsome.
    destruct (callBody_log h c tx) as (added & Hlog & Htraces).
    exists (callBody h c tx).2, added.
    rewrite (invoke_known _ _ _ _ Hsome). simpl.
    by rewrite lookup_insert_eq.
  - apply (reachable_invariant
             (fun tx => traces INITIATED (Transaction.auditLog tx)
                          (Transaction.status tx))).
    + intros h property seller buyer s.
      destruct (initiateTransaction_result h property seller buyer s)
        as (tx & -> & _ & Hstatus & _ & _ & _ & Hwalk).
      simpl. rewrite Hstatus. by eapply walks_weaken; [| exact Hwalk].
    + intros h c tx Htraces.
      destruct (callBody_log h c tx) as (added & -> & Hadded).
      by eapply walks_app.
Qed.

(** The log of the completed transaction leads from [INITIATED] to
    [COMPLETED]. *)
Lemma audit_log_traces_phase_witness :
  ∃ tx,
    serve Scenario.completed ∅ !! "tx-1" = Some tx ∧
    Transaction.status tx = COMPLETED ∧
    traces INITIATED (Transaction.auditLog tx) (Transaction.status tx).
Proof.
  eexists. split; [vm_compute; reflexivity |]. split; [reflexivity |].
  apply (proj2 (proj2 audit_log_traces_phase)
           (serve Scenario.completed ∅) "tx-1").
  - apply reachable_serve.
  - vm_compute. reflexivity.
Defined.

(** C4 as stated fails: cancelling a transaction that is already cancelled
    appends a [STATUS_CHANGED] event from [CANCELLED] to [CANCELLED] while
    the phase does not change. *)
Lemma status_changed_without_change : ¬ statusChangedMeansChange.
Proof.
  intros H.
  pose (s := serve Scenario.cancelledEarly ∅).
  pose (h := Scenario.host "-" 6).
  pose (c := CancelTransaction "tx-1" "buyer-1" "Once more").
  assert (∃ tx tx' e,
            s !! callTarget c = Some tx ∧
            (invoke h c s).2 !! callTarget c = Some tx' ∧
            drop (length (Transaction.auditLog tx)) (Transaction.auditLog tx')
              !! 0%nat = Some e ∧
            AuditEvent.action e = "STATUS_CHANGED" ∧
            Transaction.status tx' = Transaction.status tx ∧
            AuditEvent.previousStatus e = AuditEvent.newStatus e)
    as (tx & tx' & e & Htx & Htx' & He & Hact & Hsame & Hloop).
  { do 3 eexists. split; [vm_compute; reflexivity |].
    split; [vm_compute; reflexivity |].
    split; [vm_compute; reflexivity |].
    by vm_compute. }
  destruct (H s h c tx tx' e (reachable_serve _) Htx Htx'
              (list_elem_of_lookup_2 _ _ _ He) Hact); contradiction.
Qed.

(** *** The edges the phase moves along *)

(** C1 (amended). For every reachable transaction, every operation other
    than a [verifyDocument] called outside [DOCUMENTS_PENDING] or a
    [confirmPayment] called outside [PAYMENT_PENDING] moves the phase only
    along the edges of the table or the edges that [cancelTransaction] and
    [raiseDispute] add to it ([OWNERSHIP_TRANSFER_PENDING] or [DISPUTED] to
    [CANCELLED], and the recorded self-loops [CANCELLED] to [CANCELLED] and
    [DISPUTED] to [DISPUTED]); each step is recorded. Under these operations
    a [COMPLETED] transaction stays [COMPLETED] and a [CANCELLED] one stays
    [CANCELLED]. *)
Theorem phase_moves_along_service_edges h c (s : Store) tx :
  reachable s →
  s !! callTarget c = Some tx →
  inPhase c tx →
  ∃ tx' added,
    (invoke h c s).2 !! callTarget c = Some tx' ∧
    Transaction.auditLog tx' = (Transaction.auditLog tx ++ added)%list ∧
    walks serviceEdge (Transaction.status tx) added (Transaction.status tx') ∧
    (∀ e p n, e ∈ added → isTransition e p n → serviceEdge p n) ∧
    (Transaction.status tx = COMPLETED → Transaction.status tx' = COMPLETED) ∧
    (Transaction.status tx = CANCELLED → Transaction.status tx' = CANCELLED).
Proof.
  intros Hreach Hsome Hphase.
  destruct (callBody_edges h c tx Hphase (reachable_atRest _ _ _ Hreach Hsome))
    as (added & Hlog & Hwalk).
  exists (callBody h c tx).2, added.
  rewrite (invoke_known _ _ _ _ Hsome). simpl. rewrite lookup_insert_eq.
  split; [done |]. split; [done |]. split; [done |]. split; [| split].
  - intros e p n. by apply (walks_edges _ _ _ _ _ _ _ Hwalk).
  - intros Hc. symmetry.
    apply (walks_stays serviceEdge (fun p => COMPLETED = p) _ _ _
             ltac:(by intros a b <-; destruct b) Hwalk). done.
  - intros Hc. symmetry.
    apply (walks_stays serviceEdge (fun p => CANCELLED = p) _ _ _
             ltac:(by intros a b <-; destruct b) Hwalk). done.
Qed.

(** Verifying the fourth required document of a transaction in
    [DOCUMENTS_PENDING] moves it along two edges to [PAYMENT_PENDING];
    cancelling a [CANCELLED] transaction records the self-loop and leaves it
    [CANCELLED]. *)
Lemma phase_moves_along_service_edges_witness :
  (∃ tx tx' added,
     serve Scenario.threeVerified ∅ !! "tx-1" = Some tx ∧
     Transaction.status tx = DOCUMENTS_PENDING ∧
     (invoke (Scenario.host "-" 9)
             (VerifyDocument "tx-1" "doc-4" "notary-1")
             (serve Scenario.threeVerified ∅)).2 !! "tx-1" = Some tx' ∧
     Transaction.auditLog tx' = (Transaction.auditLog tx ++ added)%list ∧
     walks serviceEdge DOCUMENTS_PENDING added PAYMENT_PENDING) ∧
  (∃ tx tx' added,
     serve Scenario.cancelledEarly ∅ !! "tx-1" = Some tx ∧
     Transaction.status tx = CANCELLED ∧
     (invoke (Scenario.host "-" 6)
             (CancelTransaction "tx-1" "buyer-1" "Once more")
             (serve Scenario.cancelledEarly ∅)).2 !! "tx-1" = Some tx' ∧
     Transaction.auditLog tx' = (Transaction.auditLog tx ++ added)%list ∧
     walks serviceEdge CANCELLED added CANCELLED).
Proof.
  split.
  - let o := eval vm_compute in (serve Scenario.threeVerified ∅ !! "tx-1") in
    match o with Some ?x => pose (tx := x) end.
    destruct (phase_moves_along_service_edges (Scenario.host "-" 9)
                (VerifyDocument "tx-1" "doc-4" "notary-1")
                (serve Scenario.threeVerified ∅) tx)
      as (tx' & added & Hlookup & Hlog & Hwalk & _);
      [apply reachable_serve | vm_compute; reflexivity | reflexivity |].
    exists tx, tx', added.
    split; [vm_compute; reflexivity |]. split; [reflexivity |].
    split; [exact Hlookup |]. split; [exact Hlog |].
    vm_compute in Hlookup. injection Hlookup as <-. exact Hwalk.
  - let o := eval vm_compute in (serve Scenario.cancelledEarly ∅ !! "tx-1") in
    match o with Some ?x => pose (tx := x) end.
    destruct (phase_moves_along_service_edges (Scenario.host "-" 6)
                (CancelTransaction "tx-1" "buyer-1" "Once more")
                (serve Scenario.cancelledEarly ∅) tx)
      as (tx' & added & Hlookup & Hlog & Hwalk & _);
      [apply reachable_serve | vm_compute; reflexivity | exact I |].
    exists tx, tx', added.
    split; [vm_compute; reflexivity |]. split; [reflexivity |].
    split; [exact Hlookup |]. split; [exact Hlog |].
    vm_compute in Hlookup. injection Hlookup as <-. exact Hwalk.
Defined.

(** C1 as stated fails: the log of a transaction cancelled twice records a
    transition from [CANCELLED] to [CANCELLED], which is no edge of the
    table. *)
Lemma phases_leave_the_table : ¬ phasesFollowTable.
Proof.
  intros H.
  assert (∃ tx e,
            serve Scenario.cancelledTwice ∅ !! "tx-1" = Some tx ∧
            Transaction.auditLog tx !! 9%nat = Some e ∧
            isTransition e CANCELLED CANCELLED)
    as (tx & e & Htx & He & Hloop).
  { do 2 eexists. split; [vm_compute; reflexivity |].
    split; [vm_compute; reflexivity |]. by repeat split. }
  specialize (H _ _ _ (reachable_serve _) Htx e CANCELLED CANCELLED
                (list_elem_of_lookup_2 _ _ _ He) Hloop).
  discriminate H.
Qed.

(** *** Automatic advances *)



(** C7. For a reachable transaction in [DOCUMENTS_PENDING], a
    [verifyDocument] call after which a verified title deed, a verified
    seller identity, a verified buyer identity and a verified purchase
    agreement are on file advances the phase within the call, through
    [DOCUMENTS_VERIFIED] to [PAYMENT_PENDING], as two recorded transitions
    after the [DOCUMENT_VERIFIED] event. Nothing is asked of mortgage
    approvals and inspection reports. *)
Theorem verifyDocument_advances_when_complete
    h i documentId verifiedBy (s : Store) tx :
  reachable s →
  s !! i = Some tx →
  Transaction.status tx = DOCUMENTS_PENDING →
  ∃ tx',
    (verifyDocument h i documentId verifiedBy s).2 !! i = Some tx' ∧
    (hasVerified TITLE_DEED (Transaction.documents tx') →
     hasVerified IDENTITY_SELLER (Transaction.documents tx') →
     hasVerified IDENTITY_BUYER (Transaction.documents tx') →
     hasVerified PURCHASE_AGREEMENT (Transaction.documents tx') →
     Transaction.status tx' = PAYMENT_PENDING ∧
     ∃ e0 e1 e2,
       Transaction.auditLog tx' = (Transaction.auditLog tx ++ [e0; e1; e2])%list ∧
       AuditEvent.action e0 = "DOCUMENT_VERIFIED" ∧
       isTransition e1 DOCUMENTS_PENDING DOCUMENTS_VERIFIED ∧
       isTransition e2 DOCUMENTS_VERIFIED PAYMENT_PENDING).
Proof.
  intros Hreach Hsome Hstatus.
  pose proof (reachable_pending_incomplete _ _ _ Hreach Hsome Hstatus) as Hnot.
  assert (Hsame : hasVerified TITLE_DEED (Transaction.documents tx) →
                  hasVerified IDENTITY_SELLER (Transaction.documents tx) →
                  hasVerified IDENTITY_BUYER (Transaction.documents tx) →
                  hasVerified PURCHASE_AGREEMENT (Transaction.documents tx) →
                  False).
  { intros H1 H2 H3 H4. apply not_true_iff_false in Hnot. apply Hnot.
    by apply areAllRequiredDocumentsVerified_iff. }
  unfold verifyDocument.
  rewrite (onTransaction_known _ _ _ _ Hsome). simpl.
  rewrite lookup_insert_eq. eexists. split; [reflexivity |].
  unfold_tx.
  destruct (list_find _ _) as [[k doc] |];
    [| simpl; intros H1 H2 H3 H4; by destruct (Hsame H1 H2 H3 H4)].
  destruct (Document.verified doc);
    [simpl; intros H1 H2 H3 H4; by destruct (Hsame H1 H2 H3 H4) |].
  match goal with |- context [areAllRequiredDocumentsVerified ?t] =>
    destruct (areAllRequiredDocumentsVerified t) eqn:Hall end.
  - simpl. intros _ _ _ _. rewrite Hstatus. split; [done |].
    do 3 eexists. split; [by rewrite <- !app_assoc |]. by repeat split.
  - simpl. intros H1 H2 H3 H4.
    apply not_true_iff_false in Hall. contradict Hall.
    apply areAllRequiredDocumentsVerified_iff. simpl. tauto.
Qed.

(** Verifying the fourth of the four required documents; no mortgage
    approval and no inspection report is on file. *)
Lemma verifyDocument_advances_when_complete_witness :
  ∃ tx tx',
    serve Scenario.threeVerified ∅ !! "tx-1" = Some tx ∧
    Transaction.status tx = DOCUMENTS_PENDING ∧
    (verifyDocument (Scenario.host "-" 9) "tx-1" "doc-4" "notary-1"
       (serve Scenario.threeVerified ∅)).2 !! "tx-1" = Some tx' ∧
    Document.type <$> Transaction.documents tx'
      = [TITLE_DEED; IDENTITY_SELLER; IDENTITY_BUYER; PURCHASE_AGREEMENT] ∧
    Transaction.status tx' = PAYMENT_PENDING ∧
    ∃ e0 e1 e2,
      Transaction.auditLog tx' = (Transaction.auditLog tx ++ [e0; e1; e2])%list ∧
      AuditEvent.action e0 = "DOCUMENT_VERIFIED" ∧
      isTransition e1 DOCUMENTS_PENDING DOCUMENTS_VERIFIED ∧
      isTransition e2 DOCUMENTS_VERIFIED PAYMENT_PENDING.
Proof.
  let o := eval vm_compute in (serve Scenario.threeVerified ∅ !! "tx-1") in
  match o with Some ?x => pose (tx := x) end.
  destruct (verifyDocument_advances_when_complete (Scenario.host "-" 9)
              "tx-1" "doc-4" "notary-1" (serve Scenario.threeVerified ∅) tx)
    as (tx' & Hlookup & Hadvance);
    [apply reachable_serve | vm_compute; reflexivity | reflexivity |].
  exists tx, tx'.
  split; [vm_compute; reflexivity |]. split; [reflexivity |].
  split; [exact Hlookup |].
  assert (Hall : areAllRequiredDocumentsVerified tx' = true ∧
                 Document.type <$> Transaction.documents tx'
                 = [TITLE_DEED; IDENTITY_SELLER; IDENTITY_BUYER;
                    PURCHASE_AGREEMENT]).
  { vm_compute in Hlookup. injection Hlookup as <-. by vm_compute. }
  destruct Hall as [Hall Hkinds]. split; [exact Hkinds |].
  apply areAllRequiredDocumentsVerified_iff in Hall as (H1 & H2 & H3 & H4).
  by apply Hadvance.
Defined.

(** *** The escrow balance counts the payments made after the opening *)




(** *** Flags flip once *)

(** C8. The [verified] flag of a document and the [confirmed] flag of a
    payment go from false to true at most once. A successful
    [verifyDocument] found the document unverified and set [verified],
    [verifiedBy] and [verifiedAt]; whatever requests follow (none of them
    creating a transaction under the same identifier again), the document
    found for that identifier is still that very record, and every further
    [verifyDocument] on it throws the already-verified error and changes
    nothing. The same holds of [confirmPayment] and the
    already-confirmed error. *)
Theorem flags_flip_once h i itemId by_ (s : Store) history :
  keeps i history →
  ((verifyDocument h i itemId by_ s).1 = Returned tt →
   ∃ tx k d tx',
     s !! i = Some tx ∧
     findsDocument itemId k d tx ∧
     Document.verified d = false ∧
     serve history (verifyDocument h i itemId by_ s).2 !! i = Some tx' ∧
     findsDocument itemId k (markVerified by_ (now h) d) tx' ∧
     Document.verified (markVerified by_ (now h) d) = true ∧
     Document.verifiedBy (markVerified by_ (now h) d) = Some by_ ∧
     Document.verifiedAt (markVerified by_ (now h) d) = Some (now h) ∧
     ∀ h' by',
       verifyDocument h' i itemId by'
         (serve history (verifyDocument h i itemId by_ s).2)
       = (Thrown (DocumentAlreadyVerified itemId),
          serve history (verifyDocument h i itemId by_ s).2)) ∧
  ((confirmPayment h i itemId by_ s).1 = Returned tt →
   ∃ tx k p tx',
     s !! i = Some tx ∧
     findsPayment itemId k p tx ∧
     Payment.confirmed p = false ∧
     serve history (confirmPayment h i itemId by_ s).2 !! i = Some tx' ∧
     findsPayment itemId k (Payment.set_confirmed true p) tx' ∧
     ∀ h' by',
       confirmPayment h' i itemId by'
         (serve history (confirmPayment h i itemId by_ s).2)
       = (Thrown PaymentAlreadyConfirmed,
          serve history (confirmPayment h i itemId by_ s).2)).
Proof.
  intros Hkeeps. split.
  - unfold verifyDocument.
    destruct (s !! i) as [tx |] eqn:Hsome;
      [| by rewrite (onTransaction_unknown _ _ _ Hsome)].
    rewrite (onTransaction_known _ _ _ _ Hsome). cbn [fst snd]. intros Hok.
    destruct (verifyDocument_body_returned _ _ _ _ Hok)
      as (k & d & Hd & Hfalse & Hd').
    destruct (serve_preserves
                (findsDocument itemId k (markVerified by_ (now h) d)) i
                (fun h0 c tx0 => callBody_findsDocument itemId k
                   (markVerified by_ (now h) d) h0 c tx0 eq_refl)
                history _ _ Hkeeps (lookup_insert_eq s i _) Hd')
      as (tx' & Hlookup & Hfinds).
    exists tx, k, d, tx'. repeat split; try done.
    intros h' by'.
    rewrite (onTransaction_known _ _ _ _ Hlookup).
    rewrite (verifyDocument_body_again h' itemId by' k _ tx' Hfinds eq_refl).
    cbn [fst snd]. f_equal. by apply insert_id.
  - unfold confirmPayment.
    destruct (s !! i) as [tx |] eqn:Hsome;
      [| by rewrite (onTransaction_unknown _ _ _ Hsome)].
    rewrite (onTransaction_known _ _ _ _ Hsome). cbn [fst snd]. intros Hok.
    destruct (confirmPayment_body_returned _ _ _ _ Hok)
      as (k & p & Hp & Hfalse & Hp').
    destruct (serve_preserves
                (findsPayment itemId k (Payment.set_confirmed true p)) i
                (fun h0 c tx0 => callBody_findsPayment itemId k
                   (Payment.set_confirmed true p) h0 c tx0 eq_refl)
                history _ _ Hkeeps (lookup_insert_eq s i _) Hp')
      as (tx' & Hlookup & Hfinds).
    exists tx, k, p, tx'. repeat split; try done.
    intros h' by'.
    rewrite (onTransaction_known _ _ _ _ Hlookup).
    rewrite (confirmPayment_body_again h' itemId by' k _ tx' Hfinds eq_refl).
    cbn [fst snd]. f_equal. by apply insert_id.
Qed.

(** The first document is verified; after more requests a second
    verification of it is refused. The payment is confirmed; after a dispute
    raised and resolved a second confirmation is refused. *)
Lemma flags_flip_once_witness :
  (verifyDocument (Scenario.host "-" 6) "tx-1" "doc-1" "notary-1"
     (serve Scenario.uploaded ∅)).1 = Returned tt ∧
  (verifyDocument (Scenario.host "-" 11) "tx-1" "doc-1" "notary-2"
     (serve Scenario.afterFirstVerification
        (verifyDocument (Scenario.host "-" 6) "tx-1" "doc-1" "notary-1"
           (serve Scenario.uploaded ∅)).2)).1
  = Thrown (DocumentAlreadyVerified "doc-1") ∧
  (confirmPayment (Scenario.host "-" 12) "tx-1" "pay-1" "bank-1"
     (serve Scenario.paymentSubmitted ∅)).1 = Returned tt ∧
  (confirmPayment (Scenario.host "-" 15) "tx-1" "pay-1" "bank-2"
     (serve Scenario.afterConfirmation
        (confirmPayment (Scenario.host "-" 12) "tx-1" "pay-1" "bank-1"
           (serve Scenario.paymentSubmitted ∅)).2)).1
  = Thrown PaymentAlreadyConfirmed.
Proof.
  assert (Hkeeps1 : keeps "tx-1" Scenario.afterFirstVerification).
  { repeat (apply Forall_cons; split;
              [first [exact (fun x => x) | intros Hsame; by vm_compute in Hsame] |]).
    exact (List.Forall_nil _). }
  assert (Hkeeps2 : keeps "tx-1" Scenario.afterConfirmation).
  { repeat (apply Forall_cons; split; [exact (fun x => x) |]).
    exact (List.Forall_nil _). }
  assert (Hfirst : (verifyDocument (Scenario.host "-" 6) "tx-1" "doc-1"
                      "notary-1" (serve Scenario.uploaded ∅)).1 = Returned tt)
    by (vm_compute; reflexivity).
  assert (Hpaid : (confirmPayment (Scenario.host "-" 12) "tx-1" "pay-1"
                     "bank-1" (serve Scenario.paymentSubmitted ∅)).1
                  = Returned tt)
    by (vm_compute; reflexivity).
  destruct (proj1 (flags_flip_once (Scenario.host "-" 6) "tx-1" "doc-1"
                     "notary-1" (serve Scenario.uploaded ∅)
                     Scenario.afterFirstVerification Hkeeps1) Hfirst)
    as (_ & _ & _ & _ & _ & _ & _ & _ & _ & _ & _ & _ & Hagain).
  destruct (proj2 (flags_flip_once (Scenario.host "-" 12) "tx-1" "pay-1"
                     "bank-1" (serve Scenario.paymentSubmitted ∅)
                     Scenario.afterConfirmation Hkeeps2) Hpaid)
    as (_ & _ & _ & _ & _ & _ & _ & _ & _ & Hpaidagain).
  split; [exact Hfirst |].
  split; [by rewrite (Hagain (Scenario.host "-" 11) "notary-2") |].
  split; [exact Hpaid |].
  by rewrite (Hpaidagain (Scenario.host "-" 15) "bank-2").
Defined.

(** *** Cancellation *)

(** What [cancelTransaction] does by itself: on a known transaction it
    throws exactly when the phase is [COMPLETED]; from every other phase it
    succeeds, records the transition to [CANCELLED], stamps [cancelledAt]
    and logs the reason. *)
Lemma cancelTransaction_outcome h i actor reason (s : Store) tx :
  s !! i = Some tx →
  (Transaction.status tx = COMPLETED →
   cancelTransaction h i actor reason s = (Thrown CannotCancelCompleted, s)) ∧
  (Transaction.status tx ≠ COMPLETED →
   ∃ tx' e1 e2,
     cancelTransaction h i actor reason s = (Returned tt, <[i := tx']> s) ∧
     Transaction.status tx' = CANCELLED ∧
     Transaction.cancelledAt tx' = Some (now h) ∧
     Transaction.auditLog tx' = (Transaction.auditLog tx ++ [e1; e2])%list ∧
     isTransition e1 (Transaction.status tx) CANCELLED ∧
     AuditEvent.action e2 = "TRANSACTION_CANCELLED" ∧
     AuditEvent.description e2 = "Cancelled: " ++ reason).
Proof.
  intros Hsome. unfold cancelTransaction.
  rewrite (onTransaction_known _ _ _ _ Hsome). unfold_tx. split.
  - intros Hdone. rewrite bool_decide_eq_true_2 by done. simpl.
    f_equal. by apply insert_id.
  - intros Hlive. rewrite bool_decide_eq_false_2 by done. simpl.
    do 3 eexists. split; [reflexivity |]. simpl.
    split; [done |]. split; [done |].
    split; [by rewrite <- app_assoc |]. by repeat split.
Qed.

(** C2 (the service departs from it). In the cancellation scenario of the
    demo (escrow opened, two of the four required documents uploaded, then
    cancelled) the transaction is [CANCELLED], and yet a [verifyDocument]
    call on its first document does not throw: it returns, and the document
    is verified. The claim asks for an invalid-state error. *)
Theorem verifyDocument_accepted_after_cancellation :
  ∃ tx tx',
    serve Scenario.cancelledEarly ∅ !! "tx-1" = Some tx ∧
    Transaction.status tx = CANCELLED ∧
    Document.verified <$> Transaction.documents tx = [false; false] ∧
    (verifyDocument (Scenario.host "-" 6) "tx-1" "doc-1" "ai-notary-agent-v1"
       (serve Scenario.cancelledEarly ∅)).1 = Returned tt ∧
    (verifyDocument (Scenario.host "-" 6) "tx-1" "doc-1" "ai-notary-agent-v1"
       (serve Scenario.cancelledEarly ∅)).2 !! "tx-1" = Some tx' ∧
    Document.verified <$> Transaction.documents tx' = [true; false] ∧
    Transaction.status tx' = CANCELLED.
Proof.
  do 2 eexists. split; [vm_compute; reflexivity |].
  split; [reflexivity |]. split; [reflexivity |].
  split; [vm_compute; reflexivity |].
  split; [vm_compute; reflexivity |]. by split.
Qed.

(** C9 (the service departs from it). [CANCELLED] is not terminal. A
    transaction cancelled with three of the four required documents verified
    is taken to [PAYMENT_PENDING] by the verification of the fourth; a
    transaction cancelled with an unconfirmed payment of the full price is
    taken to [OWNERSHIP_TRANSFER_PENDING] by the confirmation of that
    payment. *)
Theorem cancelled_transaction_moves_on :
  (∃ tx tx',
     serve Scenario.cancelledLate ∅ !! "tx-1" = Some tx ∧
     Transaction.status tx = CANCELLED ∧
     (verifyDocument (Scenario.host "-" 10) "tx-1" "doc-4" "notary-1"
        (serve Scenario.cancelledLate ∅)).1 = Returned tt ∧
     (verifyDocument (Scenario.host "-" 10) "tx-1" "doc-4" "notary-1"
        (serve Scenario.cancelledLate ∅)).2 !! "tx-1" = Some tx' ∧
     Transaction.status tx' = PAYMENT_PENDING) ∧
  (∃ tx tx',
     serve Scenario.cancelledUnconfirmed ∅ !! "tx-1" = Some tx ∧
     Transaction.status tx = CANCELLED ∧
     (confirmPayment (Scenario.host "-" 13) "tx-1" "pay-1" "bank-1"
        (serve Scenario.cancelledUnconfirmed ∅)).1 = Returned tt ∧
     (confirmPayment (Scenario.host "-" 13) "tx-1" "pay-1" "bank-1"
        (serve Scenario.cancelledUnconfirmed ∅)).2 !! "tx-1" = Some tx' ∧
     Transaction.status tx' = OWNERSHIP_TRANSFER_PENDING).
Proof.
  split.
  - do 2 eexists. split; [vm_compute; reflexivity |]. split; [reflexivity |].
    split; [vm_compute; reflexivity |]. split; [vm_compute; reflexivity |].
    reflexivity.
  - do 2 eexists. split; [vm_compute; reflexivity |]. split; [reflexivity |].
    split; [vm_compute; reflexivity |]. split; [vm_compute; reflexivity |].
    reflexivity.
Qed.

(** ** Further properties of the service *)

(** *** Creation *)

(** X1. [initiateTransaction] stores the new transaction under the
    identifier drawn for it and returns it: [getTransaction] finds it there
    and every other identifier holds what it held. The transaction leaves
    the call in [DOCUMENTS_PENDING], with no document, payment, escrow
    account, completion, cancellation or dispute, with the contract for its
    property and parties, and with a log of four events by [SYSTEM]: the
    initiation, the step to [CONTRACT_GENERATED], the generation of the
    contract and the step to [DOCUMENTS_PENDING]. *)
Theorem initiateTransaction_contract h property seller buyer (s : Store) :
  ∃ tx c e0 e1 e2 e3,
    initiateTransaction h property seller buyer s = (tx, <[uuidv4 h := tx]> s) ∧
    getTransaction (uuidv4 h) (<[uuidv4 h := tx]> s) = Returned tx ∧
    (∀ j, j ≠ uuidv4 h → <[uuidv4 h := tx]> s !! j = s !! j) ∧
    Transaction.id tx = uuidv4 h ∧
    Transaction.property tx = property ∧
    Transaction.seller tx = seller ∧
    Transaction.buyer tx = buyer ∧
    Transaction.status tx = DOCUMENTS_PENDING ∧
    Transaction.documents tx = [] ∧
    Transaction.payments tx = [] ∧
    Transaction.escrow tx = None ∧
    Transaction.completedAt tx = None ∧
    Transaction.cancelledAt tx = None ∧
    Transaction.disputeReason tx = None ∧
    Transaction.contract tx = Some c ∧
    GeneratedContract.agreedPrice c = Property.price property ∧
    GeneratedContract.propertyAddress c = Property.address property ∧
    GeneratedContract.sellerName c = Party.name seller ∧
    GeneratedContract.buyerName c = Party.name buyer ∧
    Transaction.auditLog tx = [e0; e1; e2; e3] ∧
    AuditEvent.action e0 = "TRANSACTION_INITIATED" ∧
    isTransition e1 INITIATED CONTRACT_GENERATED ∧
    AuditEvent.action e2 = "CONTRACT_GENERATED" ∧
    isTransition e3 CONTRACT_GENERATED DOCUMENTS_PENDING ∧
    Forall (fun e => AuditEvent.actor e = "SYSTEM") [e0; e1; e2; e3].
Proof.
  do 6 eexists. split; [reflexivity |].
  split; [unfold getTransaction; by rewrite lookup_insert_eq |].
  split; [intros j Hj; by rewrite lookup_insert_ne |].
  simpl. repeat split. repeat constructor.
Qed.

Lemma created_cons r history :
  created (r :: history)
  = match r with
    | Initiate h _ _ _ => {[uuidv4 h]} ∪ created history
    | Invoke _ _ => created history
    end.
Proof. by destruct r. Qed.

Lemma handle_dom r (s : Store) :
  dom (handle r s)
  = match r with
    | Initiate h _ _ _ => {[uuidv4 h]} ∪ dom s
    | Invoke _ _ => dom s
    end.
Proof.
  destruct r as [h property seller buyer | h c]; unfold handle.
  - destruct (initiateTransaction_result h property seller buyer s)
      as (tx & -> & _). cbn [snd]. apply dom_insert_L.
  - destruct (s !! callTarget c) as [tx |] eqn:Htarget.
    + rewrite (invoke_known _ _ _ _ Htarget). cbn [snd]. rewrite dom_insert_L.
      apply elem_of_dom_2 in Htarget.
      apply set_eq. intros j. rewrite elem_of_union, elem_of_singleton.
      split; [intros [-> | ?]; done | by right].
    + by rewrite (invoke_unknown _ _ _ Htarget).
Qed.

(** X2. The identifiers the service knows after a history are those it knew
    before and those drawn by the [initiateTransaction] requests of the
    history: no other request adds a transaction, and no request removes
    one. *)
Theorem known_identifiers history (s : Store) :
  dom (serve history s) = dom s ∪ created history.
Proof.
  revert s. induction history as [| r history IH]; intros s.
  - unfold created. simpl. by rewrite union_empty_r_L.
  - cbn [serve fold_left]. fold (serve history (handle r s)).
    rewrite IH, handle_dom, created_cons. destruct r; [| done].
    by rewrite (union_comm_L {[_]} (dom s)), union_assoc_L.
Qed.

Lemma callBody_sameIdentity h c tx : sameIdentity tx (callBody h c tx).2.
Proof.
  unfold sameIdentity.
  destruct c; unfold_tx; repeat case_match; simplify_eq; simpl; done.
Qed.

(** A property of the transactions of reachable maps that may mention the
    key they are stored under. *)
Lemma reachable_invariant_keyed (P : string → Transaction.t → Prop) :
  (∀ h property seller buyer s,
     P (uuidv4 h) (initiateTransaction h property seller buyer s).1) →
  (∀ i h c tx, P i tx → P i (callBody h c tx).2) →
  ∀ s i tx, reachable s → s !! i = Some tx → P i tx.
Proof.
  intros Hinit Hstep s i tx [history ->]. revert i tx.
  induction history as [| r history IH] using rev_ind; intros i tx.
  - simpl. by rewrite lookup_empty.
  - rewrite serve_app. cbn [serve fold_left].
    destruct r as [h property seller buyer | h c]; unfold handle.
    + specialize (Hinit h property seller buyer (serve history ∅)).
      destruct (initiateTransaction_result h property seller buyer
                  (serve history ∅)) as (tx0 & Heq & _).
      rewrite Heq in *. simpl in *.
      destruct (decide (uuidv4 h = i)) as [<- | Hne].
      * rewrite lookup_insert_eq. congruence.
      * rewrite lookup_insert_ne by done. apply IH.
    + destruct (serve history ∅ !! callTarget c) as [tx1 |] eqn:Htarget.
      * rewrite (invoke_known _ _ _ _ Htarget). simpl.
        destruct (decide (callTarget c = i)) as [<- | Hne].
        -- rewrite lookup_insert_eq. intros [= <-]. apply Hstep. by eapply IH.
        -- rewrite lookup_insert_ne by done. apply IH.
      * rewrite (invoke_unknown _ _ _ Htarget). apply IH.
Qed.

(** X3. Every transaction of a reachable map is stored under its own
    identifier and carries the contract generated at its creation: the
    contract names the address and price of the property and the names of
    the seller and the buyer, and no operation signs or replaces it. *)
Theorem stored_under_own_id_with_own_contract s i tx :
  reachable s → s !! i = Some tx →
  Transaction.id tx = i ∧ contractMatches tx.
Proof.
  apply (reachable_invariant_keyed
           (fun i tx => Transaction.id tx = i ∧ contractMatches tx)).
  - intros h property seller buyer s0. split; [reflexivity |].
    eexists. split; [reflexivity |]. by repeat split.
  - intros j h c tx0 [Hid (c0 & Hc & Hrest)].
    destruct (callBody_sameIdentity h c tx0) as (Hi & Hp & Hs & Hb & Hcon & _).
    split; [congruence |]. exists c0. unfold contractMatches.
    rewrite Hp, Hs, Hb, Hcon. by split.
Qed.

(** The completed sale: the transaction is stored under [tx-1] and still
    carries the contract for 350000 between Sanna and Bilal. *)
Lemma stored_under_own_id_with_own_contract_witness :
  ∃ tx c,
    serve Scenario.completed ∅ !! "tx-1" = Some tx ∧
    Transaction.id tx = "tx-1" ∧
    Transaction.contract tx = Some c ∧
    GeneratedContract.agreedPrice c = 350000%Z ∧
    GeneratedContract.sellerName c = "Sanna" ∧
    GeneratedContract.buyerName c = "Bilal".
Proof.
  stored_in Scenario.completed tx.
  destruct (stored_under_own_id_with_own_contract
              (serve Scenario.completed ∅) "tx-1" tx)
    as (Hid & c & Hc & _ & _ & Hprice & Hseller & Hbuyer & _);
    [apply reachable_serve | vm_compute; reflexivity |].
  exists tx, c. split; [vm_compute; reflexivity |].
  split; [exact Hid |]. split; [exact Hc |].
  split; [exact Hprice |]. split; [exact Hseller | exact Hbuyer].
Defined.

(** *** Uploads, payments, the transfer and disputes *)

(** X4. [uploadDocument] on a known transaction: outside
    [DOCUMENTS_PENDING] it throws the invalid-status error and changes
    nothing; in [DOCUMENTS_PENDING] it returns a new unverified document,
    appended to the documents, and logs one [DOCUMENT_UPLOADED] event by
    the uploader; the phase, the payments and the escrow account are
    untouched. *)
Theorem uploadDocument_contract h i ty by_ notes (s : Store) tx :
  s !! i = Some tx →
  (Transaction.status tx ≠ DOCUMENTS_PENDING →
   uploadDocument h i ty by_ notes s
   = (Thrown (InvalidStatus "upload documents" (Transaction.status tx)
                [DOCUMENTS_PENDING]), s)) ∧
  (Transaction.status tx = DOCUMENTS_PENDING →
   ∃ d tx' ev,
     uploadDocument h i ty by_ notes s = (Returned d, <[i := tx']> s) ∧
     d = {| Document.id := uuidv4 h; Document.type := ty;
            Document.uploadedBy := by_; Document.uploadedAt := now h;
            Document.verified := false; Document.verifiedBy := None;
            Document.verifiedAt := None; Document.notes := notes |} ∧
     Transaction.documents tx' = (Transaction.documents tx ++ [d])%list ∧
     Transaction.status tx' = DOCUMENTS_PENDING ∧
     Transaction.payments tx' = Transaction.payments tx ∧
     Transaction.escrow tx' = Transaction.escrow tx ∧
     Transaction.auditLog tx' = (Transaction.auditLog tx ++ [ev])%list ∧
     AuditEvent.action ev = "DOCUMENT_UPLOADED" ∧
     AuditEvent.actor ev = by_).
Proof.
  intros Hsome. unfold uploadDocument.
  rewrite (onTransaction_known _ _ _ _ Hsome). unfold_tx. split.
  - intros Hother.
    rewrite bool_decide_eq_false_2 by (by rewrite list_elem_of_singleton).
    simpl. f_equal. by apply insert_id.
  - intros Hpending.
    rewrite bool_decide_eq_true_2 by (by rewrite list_elem_of_singleton).
    simpl. do 3 eexists. split; [reflexivity |]. simpl. by repeat split.
Qed.

(** A title deed is accepted on a transaction just initiated; a late
    inspection report is refused once payment is awaited. *)
Lemma uploadDocument_contract_witness :
  (∃ tx d,
     serve Scenario.initiated ∅ !! "tx-1" = Some tx ∧
     Transaction.status tx = DOCUMENTS_PENDING ∧
     (uploadDocument (Scenario.host "doc-1" 2) "tx-1" TITLE_DEED "seller-1" None
        (serve Scenario.initiated ∅)).1 = Returned d ∧
     Document.id d = "doc-1" ∧
     Document.verified d = false) ∧
  (∃ tx,
     serve Scenario.awaitingPayment ∅ !! "tx-1" = Some tx ∧
     Transaction.status tx = PAYMENT_PENDING ∧
     uploadDocument (Scenario.host "doc-5" 10) "tx-1" INSPECTION_REPORT
       "buyer-1" None (serve Scenario.awaitingPayment ∅)
     = (Thrown (InvalidStatus "upload documents" PAYMENT_PENDING
                  [DOCUMENTS_PENDING]),
        serve Scenario.awaitingPayment ∅)).
Proof.
  split.
  - stored_in Scenario.initiated tx.
    destruct (uploadDocument_contract (Scenario.host "doc-1" 2) "tx-1"
                TITLE_DEED "seller-1" None (serve Scenario.initiated ∅) tx)
      as [_ Hok]; [vm_compute; reflexivity |].
    destruct (Hok eq_refl) as (d & tx' & ev & Hcall & Hd & _).
    exists tx, d. split; [vm_compute; reflexivity |]. split; [reflexivity |].
    rewrite Hcall, Hd. by repeat split.
  - stored_in Scenario.awaitingPayment tx.
    destruct (uploadDocument_contract (Scenario.host "doc-5" 10) "tx-1"
                INSPECTION_REPORT "buyer-1" None
                (serve Scenario.awaitingPayment ∅) tx)
      as [Hthrows _]; [vm_compute; reflexivity |].
    exists tx. split; [vm_compute; reflexivity |]. split; [reflexivity |].
    apply Hthrows. discriminate.
Defined.

(** X5. [processPayment] on a known transaction checks the phase first and
    the amount second: outside [PAYMENT_PENDING] it throws the
    invalid-status error, in [PAYMENT_PENDING] with an amount that is not
    positive it throws the amount error, and in both cases nothing changes.
    Otherwise it returns a new unconfirmed payment, appended to the
    payments, and logs [PAYMENT_SUBMITTED] by the payer; when the method is
    [ESCROW] and an escrow account exists the amount is added to its
    balance and [ESCROW_FUNDED] is logged by [SYSTEM]; else the escrow field
    is untouched. The phase and the documents are untouched. *)
Theorem processPayment_contract h i amount by_ method reference (s : Store) tx :
  s !! i = Some tx →
  (Transaction.status tx ≠ PAYMENT_PENDING →
   processPayment h i amount by_ method reference s
   = (Thrown (InvalidStatus "process payment" (Transaction.status tx)
                [PAYMENT_PENDING]), s)) ∧
  (Transaction.status tx = PAYMENT_PENDING → (amount ≤ 0)%Z →
   processPayment h i amount by_ method reference s
   = (Thrown AmountNotPositive, s)) ∧
  (Transaction.status tx = PAYMENT_PENDING → (0 < amount)%Z →
   ∃ p tx' submitted,
     processPayment h i amount by_ method reference s
     = (Returned p, <[i := tx']> s) ∧
     p = {| Payment.id := uuidv4 h; Payment.amount := amount;
            Payment.paidBy := by_; Payment.paidAt := now h;
            Payment.method := method; Payment.reference := reference;
            Payment.confirmed := false |} ∧
     Transaction.payments tx' = (Transaction.payments tx ++ [p])%list ∧
     Transaction.status tx' = PAYMENT_PENDING ∧
     Transaction.documents tx' = Transaction.documents tx ∧
     match Transaction.escrow tx with
     | Some e =>
         if bool_decide (method = ESCROW) then
           Transaction.escrow tx'
           = Some (EscrowAccount.set_balance (EscrowAccount.balance e + amount) e) ∧
           ∃ funded,
             Transaction.auditLog tx'
             = (Transaction.auditLog tx ++ [submitted; funded])%list ∧
             AuditEvent.action funded = "ESCROW_FUNDED" ∧
             AuditEvent.actor funded = "SYSTEM"
         else
           Transaction.escrow tx' = Some e ∧
           Transaction.auditLog tx' = (Transaction.auditLog tx ++ [submitted])%list
     | None =>
         Transaction.escrow tx' = None ∧
         Transaction.auditLog tx' = (Transaction.auditLog tx ++ [submitted])%list
     end ∧
     AuditEvent.action submitted = "PAYMENT_SUBMITTED" ∧
     AuditEvent.actor submitted = by_).
Proof.
  intros Hsome. unfold processPayment.
  rewrite (onTransaction_known _ _ _ _ Hsome). unfold_tx. split; [| split].
  - intros Hother.
    rewrite bool_decide_eq_false_2 by (by rewrite list_elem_of_singleton).
    simpl. f_equal. by apply insert_id.
  - intros Hpending Hle.
    rewrite bool_decide_eq_true_2 by (by rewrite list_elem_of_singleton).
    rewrite (proj2 (Z.leb_le _ _) Hle). simpl. f_equal. by apply insert_id.
  - intros Hpending Hpos.
    rewrite bool_decide_eq_true_2 by (by rewrite list_elem_of_singleton).
    rewrite (proj2 (Z.leb_gt _ _) Hpos). simpl.
    destruct (Transaction.escrow tx) as [e |] eqn:Hesc; simpl.
    + destruct (bool_decide (method = ESCROW)) eqn:Hm; simpl.
      * do 3 eexists. split; [reflexivity |]. simpl. rewrite Hesc. simpl.
        split; [done |]. split; [done |]. split; [done |]. split; [done |].
        split; [split; [done |]; eexists;
                  split; [by rewrite <- app_assoc | by split]
               | by split].
      * do 3 eexists. split; [reflexivity |]. simpl. by repeat split.
    + rewrite andb_false_r. simpl.
      do 3 eexists. split; [reflexivity |]. simpl. by repeat split.
Qed.

(** Payment awaited, escrow open: an amount of 0 is refused; the price paid by
    [ESCROW] is recorded unconfirmed and credited to the account. *)
Lemma processPayment_contract_witness :
  ∃ tx p tx' e',
    serve Scenario.escrowOpened ∅ !! "tx-1" = Some tx ∧
    Transaction.status tx = PAYMENT_PENDING ∧
    processPayment (Scenario.host "pay-0" 11) "tx-1" 0 "buyer-1" ESCROW "FI-BANK-1"
      (serve Scenario.escrowOpened ∅)
    = (Thrown AmountNotPositive, serve Scenario.escrowOpened ∅) ∧
    processPayment (Scenario.host "pay-1" 11) "tx-1" 350000 "buyer-1" ESCROW
      "FI-BANK-1" (serve Scenario.escrowOpened ∅)
    = (Returned p, <["tx-1" := tx']> (serve Scenario.escrowOpened ∅)) ∧
    Payment.id p = "pay-1" ∧
    Payment.confirmed p = false ∧
    Transaction.escrow tx' = Some e' ∧
    EscrowAccount.balance e' = 350000%Z.
Proof.
  stored_in Scenario.escrowOpened tx.
  destruct (processPayment_contract (Scenario.host "pay-0" 11) "tx-1" 0
              "buyer-1" ESCROW "FI-BANK-1" (serve Scenario.escrowOpened ∅) tx)
    as (_ & Hzero & _); [vm_compute; reflexivity |].
  destruct (processPayment_contract (Scenario.host "pay-1" 11) "tx-1" 350000
              "buyer-1" ESCROW "FI-BANK-1" (serve Scenario.escrowOpened ∅) tx)
    as (_ & _ & Hok); [vm_compute; reflexivity |].
  destruct (Hok eq_refl ltac:(lia))
    as (p & tx' & submitted & Hcall & Hp & _ & _ & _ & Hesc & _).
  vm_compute in Hesc. destruct Hesc as [Hesc _].
  eexists tx, p, tx', _.
  split; [vm_compute; reflexivity |]. split; [reflexivity |].
  split; [apply Hzero; [reflexivity | lia] |].
  split; [exact Hcall |]. rewrite Hp.
  split; [reflexivity |]. split; [reflexivity |].
  split; [exact Hesc | reflexivity].
Defined.

(** X6. [completeOwnershipTransfer] on a known transaction: outside
    [OWNERSHIP_TRANSFER_PENDING] it throws the invalid-status error and
    changes nothing; in [OWNERSHIP_TRANSFER_PENDING] it marks the escrow
    account, if there is one, as released, stamps the completion and moves
    to [COMPLETED]. It logs [ESCROW_RELEASED] by the notary exactly when
    there is an account not released yet, then the step to [COMPLETED],
    then [OWNERSHIP_TRANSFERRED]. It makes no test on the payments: the
    documents and payments are as before. *)
Theorem completeOwnershipTransfer_contract h i notaryId (s : Store) tx :
  s !! i = Some tx →
  (Transaction.status tx ≠ OWNERSHIP_TRANSFER_PENDING →
   completeOwnershipTransfer h i notaryId s
   = (Thrown (InvalidStatus "complete transfer" (Transaction.status tx)
                [OWNERSHIP_TRANSFER_PENDING]), s)) ∧
  (Transaction.status tx = OWNERSHIP_TRANSFER_PENDING →
   ∃ tx' released changed transferred,
     completeOwnershipTransfer h i notaryId s = (Returned tt, <[i := tx']> s) ∧
     Transaction.status tx' = COMPLETED ∧
     Transaction.completedAt tx' = Some (now h) ∧
     Transaction.escrow tx'
     = EscrowAccount.set_released true <$> Transaction.escrow tx ∧
     Transaction.documents tx' = Transaction.documents tx ∧
     Transaction.payments tx' = Transaction.payments tx ∧
     Transaction.auditLog tx'
     = (Transaction.auditLog tx ++ released ++ [changed; transferred])%list ∧
     isTransition changed OWNERSHIP_TRANSFER_PENDING COMPLETED ∧
     AuditEvent.action transferred = "OWNERSHIP_TRANSFERRED" ∧
     match Transaction.escrow tx with
     | Some e =>
         if EscrowAccount.released e then released = []
         else ∃ ev, released = [ev] ∧
                    AuditEvent.action ev = "ESCROW_RELEASED" ∧
                    AuditEvent.actor ev = notaryId
     | None => released = []
     end).
Proof.
  intros Hsome. unfold completeOwnershipTransfer.
  rewrite (onTransaction_known _ _ _ _ Hsome). unfold_tx. split.
  - intros Hother.
    rewrite bool_decide_eq_false_2 by (by rewrite list_elem_of_singleton).
    simpl. f_equal. by apply insert_id.
  - intros Hpending.
    rewrite bool_decide_eq_true_2 by (by rewrite list_elem_of_singleton).
    simpl. destruct (Transaction.escrow tx) as [[eid bal held [|]] |] eqn:Hesc;
      simpl.
    + eexists; exists []; do 2 eexists. split; [reflexivity |]. simpl.
      rewrite Hesc, Hpending.
      split; [done |]. split; [done |]. split; [done |].
      split; [done |]. split; [done |].
      split; [by rewrite <- !app_assoc |]. by repeat split.
    + eexists; refine (ex_intro _ [_] _); do 2 eexists.
      split; [reflexivity |]. simpl. rewrite Hesc, Hpending.
      simpl. split; [done |]. split; [done |]. split; [done |].
      split; [done |]. split; [done |].
      split; [by rewrite <- !app_assoc |]. split; [by repeat split |].
      split; [done |]. by eexists.
    + eexists; exists []; do 2 eexists. split; [reflexivity |]. simpl.
      rewrite Hesc, Hpending.
      split; [done |]. split; [done |]. split; [done |].
      split; [done |]. split; [done |].
      split; [by rewrite <- !app_assoc |]. by repeat split.
Qed.

(** The price confirmed: the transfer completes and releases the escrow
    account with its 350000. *)
Lemma completeOwnershipTransfer_contract_witness :
  ∃ tx tx' e',
    serve Scenario.transferPending ∅ !! "tx-1" = Some tx ∧
    Transaction.status tx = OWNERSHIP_TRANSFER_PENDING ∧
    completeOwnershipTransfer (Scenario.host "-" 13) "tx-1" "notary-1"
      (serve Scenario.transferPending ∅)
    = (Returned tt, <["tx-1" := tx']> (serve Scenario.transferPending ∅)) ∧
    Transaction.status tx' = COMPLETED ∧
    Transaction.escrow tx' = Some e' ∧
    EscrowAccount.released e' = true ∧
    EscrowAccount.balance e' = 350000%Z.
Proof.
  stored_in Scenario.transferPending tx.
  destruct (completeOwnershipTransfer_contract (Scenario.host "-" 13) "tx-1"
              "notary-1" (serve Scenario.transferPending ∅) tx)
    as [_ Hok]; [vm_compute; reflexivity |].
  destruct (Hok eq_refl)
    as (tx' & released & changed & transferred & Hcall & Hstatus & _ & Hesc & _).
  vm_compute in Hesc.
  eexists tx, tx', _.
  split; [vm_compute; reflexivity |]. split; [reflexivity |].
  split; [exact Hcall |]. split; [exact Hstatus |].
  split; [exact Hesc |]. split; reflexivity.
Defined.

(** X7. A dispute on a transaction that is neither [COMPLETED] nor
    [CANCELLED]: [raiseDispute] returns, records the reason and moves to
    [DISPUTED], where the transfer cannot be completed; [resolveDispute]
    then returns, clears the reason and moves to
    [OWNERSHIP_TRANSFER_PENDING] whatever the phase was before the dispute,
    so that [completeOwnershipTransfer] is accepted next. The round trip
    leaves the documents, payments and escrow account untouched and logs
    four events: the step to [DISPUTED], [DISPUTE_RAISED], the step to
    [OWNERSHIP_TRANSFER_PENDING], [DISPUTE_RESOLVED]. *)
Theorem dispute_round_trip h1 h2 h3 i actor1 reason actor2 resolution notaryId
    (s : Store) tx :
  s !! i = Some tx →
  Transaction.status tx ≠ COMPLETED →
  Transaction.status tx ≠ CANCELLED →
  ∃ tx1 tx2,
    raiseDispute h1 i actor1 reason s = (Returned tt, <[i := tx1]> s) ∧
    Transaction.status tx1 = DISPUTED ∧
    Transaction.disputeReason tx1 = Some reason ∧
    (completeOwnershipTransfer h3 i notaryId (<[i := tx1]> s)).1
    = Thrown (InvalidStatus "complete transfer" DISPUTED
                [OWNERSHIP_TRANSFER_PENDING]) ∧
    resolveDispute h2 i actor2 resolution (<[i := tx1]> s)
    = (Returned tt, <[i := tx2]> s) ∧
    Transaction.status tx2 = OWNERSHIP_TRANSFER_PENDING ∧
    Transaction.disputeReason tx2 = None ∧
    Transaction.documents tx2 = Transaction.documents tx ∧
    Transaction.payments tx2 = Transaction.payments tx ∧
    Transaction.escrow tx2 = Transaction.escrow tx ∧
    (∃ e1 e2 e3 e4,
       Transaction.auditLog tx2
       = (Transaction.auditLog tx ++ [e1; e2; e3; e4])%list ∧
       isTransition e1 (Transaction.status tx) DISPUTED ∧
       AuditEvent.action e2 = "DISPUTE_RAISED" ∧
       isTransition e3 DISPUTED OWNERSHIP_TRANSFER_PENDING ∧
       AuditEvent.action e4 = "DISPUTE_RESOLVED") ∧
    (completeOwnershipTransfer h3 i notaryId (<[i := tx2]> s)).1 = Returned tt.
Proof.
  intros Hsome Hlive1 Hlive2.
  assert (Hguard : bool_decide (Transaction.status tx ∈ [COMPLETED; CANCELLED])
                   = false).
  { apply bool_decide_eq_false_2. rewrite !elem_of_cons, elem_of_nil. tauto. }
  pose (tx1 := (raiseDispute_body h1 actor1 reason tx).2).
  pose (tx2 := (resolveDispute_body h2 actor2 resolution tx1).2).
  assert (Hraise : raiseDispute_body h1 actor1 reason tx = (Returned tt, tx1)).
  { subst tx1. unfold_tx. by rewrite Hguard. }
  assert (Hresolve : resolveDispute_body h2 actor2 resolution tx1
                     = (Returned tt, tx2)).
  { subst tx2 tx1. unfold_tx. by rewrite Hguard. }
  assert (Hlookup1 : <[i := tx1]> s !! i = Some tx1) by apply lookup_insert_eq.
  assert (Hlookup2 : <[i := tx2]> s !! i = Some tx2) by apply lookup_insert_eq.
  exists tx1, tx2.
  unfold raiseDispute, resolveDispute, completeOwnershipTransfer.
  rewrite (onTransaction_known _ _ _ _ Hsome), Hraise.
  rewrite !(onTransaction_known _ _ _ _ Hlookup1), Hresolve.
  rewrite (onTransaction_known _ _ _ _ Hlookup2).
  cbn [fst snd]. rewrite insert_insert_eq.
  split; [done |].
  split; [subst tx1; unfold_tx; by rewrite Hguard |].
  split; [subst tx1; unfold_tx; by rewrite Hguard |].
  split; [subst tx1; unfold_tx; by rewrite Hguard |].
  split; [done |].
  subst tx2 tx1. unfold_tx. rewrite Hguard. simpl.
  split; [done |]. split; [done |]. split; [done |]. split; [done |].
  split; [done |]. split.
  { do 4 eexists. split; [by rewrite <- !app_assoc |]. by repeat split. }
  by repeat case_match.
Qed.

(** A dispute raised and resolved while payment is awaited: the transfer is
    then completed although no payment was ever recorded. *)
Lemma dispute_round_trip_witness :
  ∃ tx tx1 tx2,
    serve Scenario.awaitingPayment ∅ !! "tx-1" = Some tx ∧
    Transaction.status tx = PAYMENT_PENDING ∧
    raiseDispute (Scenario.host "-" 10) "tx-1" "buyer-1" "Roof leaks"
      (serve Scenario.awaitingPayment ∅)
    = (Returned tt, <["tx-1" := tx1]> (serve Scenario.awaitingPayment ∅)) ∧
    resolveDispute (Scenario.host "-" 11) "tx-1" "system" "Roof repaired"
      (<["tx-1" := tx1]> (serve Scenario.awaitingPayment ∅))
    = (Returned tt, <["tx-1" := tx2]> (serve Scenario.awaitingPayment ∅)) ∧
    Transaction.status tx2 = OWNERSHIP_TRANSFER_PENDING ∧
    Transaction.payments tx2 = [] ∧
    (completeOwnershipTransfer (Scenario.host "-" 12) "tx-1" "notary-1"
       (<["tx-1" := tx2]> (serve Scenario.awaitingPayment ∅))).1 = Returned tt.
Proof.
  stored_in Scenario.awaitingPayment tx.
  destruct (dispute_round_trip (Scenario.host "-" 10) (Scenario.host "-" 11)
              (Scenario.host "-" 12) "tx-1" "buyer-1" "Roof leaks" "system"
              "Roof repaired" "notary-1" (serve Scenario.awaitingPayment ∅) tx)
    as (tx1 & tx2 & Hraise & _ & _ & _ & Hresolve & Hstatus & _ & _ & Hpay & _
        & _ & Hcomplete);
    [vm_compute; reflexivity | discriminate | discriminate |].
  exists tx, tx1, tx2.
  split; [vm_compute; reflexivity |]. split; [reflexivity |].
  split; [exact Hraise |]. split; [exact Hresolve |].
  split; [exact Hstatus |]. split; [exact Hpay | exact Hcomplete].
Defined.

(** *** What a transaction keeps *)

Lemma sameDocument_refl d : sameDocument d d.
Proof. by repeat split. Qed.

Lemma samePayment_refl p : samePayment p p.
Proof. by repeat split. Qed.

Lemma sameDocument_trans d1 d2 d3 :
  sameDocument d1 d2 → sameDocument d2 d3 → sameDocument d1 d3.
Proof.
  intros (? & ? & ? & ? & ? & H12) (? & ? & ? & ? & ? & H23).
  repeat split; try congruence.
  intros Hv. rewrite <- (H12 Hv). apply H23. by rewrite (H12 Hv).
Qed.

Lemma samePayment_trans p1 p2 p3 :
  samePayment p1 p2 → samePayment p2 p3 → samePayment p1 p3.
Proof.
  intros (? & ? & ? & ? & ? & ? & H12) (? & ? & ? & ? & ? & ? & H23).
  repeat split; try congruence.
  intros Hv. rewrite <- (H12 Hv). apply H23. by rewrite (H12 Hv).
Qed.

Lemma callBody_documents_grow h c tx k d :
  Transaction.documents tx !! k = Some d →
  ∃ d', Transaction.documents (callBody h c tx).2 !! k = Some d' ∧
        sameDocument d d'.
Proof.
  intros Hk.
  destruct (callBody_documents h c tx)
    as [-> | [(d0 & _ & ->) | (i' & by_ & j & d0 & Hj & Hd0 & ->)]].
  - exists d. split; [done | apply sameDocument_refl].
  - exists d. split; [by apply lookup_app_l_Some | apply sameDocument_refl].
  - destruct (decide (j = k)) as [-> | Hne].
    + apply list_find_Some in Hj as (Hj & _). simplify_eq.
      eexists. rewrite list_lookup_alter_eq, Hk. split; [reflexivity |].
      repeat split. congruence.
    + exists d. rewrite list_lookup_alter_ne by done.
      split; [done | apply sameDocument_refl].
Qed.

Lemma callBody_payments_grow h c tx k p :
  Transaction.payments tx !! k = Some p →
  ∃ p', Transaction.payments (callBody h c tx).2 !! k = Some p' ∧
        samePayment p p'.
Proof.
  intros Hk.
  destruct (callBody_payments h c tx)
    as [-> | [(p0 & _ & ->) | (i' & j & p0 & Hj & Hp0 & ->)]].
  - exists p. split; [done | apply samePayment_refl].
  - exists p. split; [by apply lookup_app_l_Some | apply samePayment_refl].
  - destruct (decide (j = k)) as [-> | Hne].
    + apply list_find_Some in Hj as (Hj & _). simplify_eq.
      eexists. rewrite list_lookup_alter_eq, Hk. split; [reflexivity |].
      repeat split. congruence.
    + exists p. rewrite list_lookup_alter_ne by done.
      split; [done | apply samePayment_refl].
Qed.

Lemma callBody_grownFrom tx0 h c tx :
  grownFrom tx0 tx → grownFrom tx0 (callBody h c tx).2.
Proof.
  intros ((Hid & Hprop & Hsel & Hbuy & Hcon & Hcre) & Hdocs & Hpays).
  destruct (callBody_sameIdentity h c tx) as (? & ? & ? & ? & ? & ?).
  split; [| split].
  - repeat split; congruence.
  - intros k d Hk. destruct (Hdocs k d Hk) as (d1 & Hk1 & Hsame1).
    destruct (callBody_documents_grow h c tx k d1 Hk1) as (d2 & Hk2 & Hsame2).
    exists d2. split; [done |]. by eapply sameDocument_trans.
  - intros k p Hk. destruct (Hpays k p Hk) as (p1 & Hk1 & Hsame1).
    destruct (callBody_payments_grow h c tx k p1 Hk1) as (p2 & Hk2 & Hsame2).
    exists p2. split; [done |]. by eapply samePayment_trans.
Qed.

(** X8. Nothing is ever removed from a transaction or reassigned to
    another: as long as its identifier is not drawn again, whatever requests
    are served, the transaction keeps its identifier, property, parties,
    contract and date of creation; every document stays at its position with
    its identifier, kind, uploader, upload date and notes, and once verified
    it never changes again; every payment stays at its position with its
    identifier, amount, payer, date, method and reference, and once
    confirmed it never changes again. *)
Theorem aggregate_only_grows i (s : Store) tx history :
  s !! i = Some tx →
  keeps i history →
  ∃ tx', serve history s !! i = Some tx' ∧ grownFrom tx tx'.
Proof.
  intros Hsome Hkeeps.
  apply (serve_preserves (grownFrom tx) i (callBody_grownFrom tx)
           history s tx Hkeeps Hsome).
  split; [by repeat split |].
  split; intros k x Hk; exists x; (split; [done |]); by repeat split.
Qed.

(** From the end of verification through a late upload, a second escrow
    request, a payment and its confirmation. *)
Lemma aggregate_only_grows_witness :
  ∃ tx tx',
    serve Scenario.awaitingPayment ∅ !! "tx-1" = Some tx ∧
    serve Scenario.afterVerification (serve Scenario.awaitingPayment ∅) !! "tx-1"
    = Some tx' ∧
    Transaction.status tx' = OWNERSHIP_TRANSFER_PENDING ∧
    grownFrom tx tx'.
Proof.
  stored_in Scenario.awaitingPayment tx.
  destruct (aggregate_only_grows "tx-1" (serve Scenario.awaitingPayment ∅) tx
              Scenario.afterVerification)
    as (tx' & Hlookup & Hgrown); [vm_compute; reflexivity | keeps_tac |].
  exists tx, tx'. split; [vm_compute; reflexivity |]. split; [exact Hlookup |].
  split; [| exact Hgrown].
  vm_compute in Hlookup. injection Hlookup as <-. reflexivity.
Defined.




Lemma callBody_documents_closed n h c tx :
  Transaction.status tx ≠ DOCUMENTS_PENDING ∧
  length (Transaction.documents tx) = n →
  Transaction.status (callBody h c tx).2 ≠ DOCUMENTS_PENDING ∧
  length (Transaction.documents (callBody h c tx).2) = n.
Proof.
  intros [Hleft Hlen].
  destruct c; unfold_tx; repeat case_match; simplify_eq; simpl in *;
    rewrite ?length_alter;
    try (split; [first [exact Hleft | discriminate] | reflexivity]).
  match goal with H : bool_decide _ = true |- _ =>
    apply bool_decide_eq_true in H; apply list_elem_of_singleton in H end.
  done.
Qed.

(** X10. [DOCUMENTS_PENDING] is never entered again: once a transaction has
    left it, as long as its identifier is not drawn again, whatever requests
    are served, the transaction is in another phase and has exactly the
    documents it had (no upload is accepted any more). *)
Theorem documents_closed_after_pending i (s : Store) tx history :
  s !! i = Some tx →
  Transaction.status tx ≠ DOCUMENTS_PENDING →
  keeps i history →
  ∃ tx', serve history s !! i = Some tx' ∧
         Transaction.status tx' ≠ DOCUMENTS_PENDING ∧
         length (Transaction.documents tx') = length (Transaction.documents tx).
Proof.
  intros Hsome Hleft Hkeeps.
  by apply (serve_preserves
              (fun tx' => Transaction.status tx' ≠ DOCUMENTS_PENDING ∧
                          length (Transaction.documents tx')
                          = length (Transaction.documents tx))
              i (callBody_documents_closed _) history s tx Hkeeps Hsome).
Qed.

(** An inspection report uploaded once payment is awaited is refused: the
    four documents remain. *)
Lemma documents_closed_after_pending_witness :
  ∃ tx tx',
    serve Scenario.awaitingPayment ∅ !! "tx-1" = Some tx ∧
    Transaction.status tx = PAYMENT_PENDING ∧
    serve Scenario.afterVerification (serve Scenario.awaitingPayment ∅) !! "tx-1"
    = Some tx' ∧
    Transaction.status tx' ≠ DOCUMENTS_PENDING ∧
    length (Transaction.documents tx') = 4%nat.
Proof.
  stored_in Scenario.awaitingPayment tx.
  destruct (documents_closed_after_pending "tx-1"
              (serve Scenario.awaitingPayment ∅) tx Scenario.afterVerification)
    as (tx' & Hlookup & Hstatus & Hlen);
    [vm_compute; reflexivity | discriminate | keeps_tac |].
  exists tx, tx'. split; [vm_compute; reflexivity |]. split; [reflexivity |].
  split; [exact Hlookup |]. split; [exact Hstatus | exact Hlen].
Defined.

(** *** Invariants of the transactions of reachable maps *)







Lemma countAction_snoc a l e :
  countAction a (l ++ [e])
  = (countAction a l + if decide (AuditEvent.action e = a) then 1 else 0)%nat.
Proof.
  unfold countAction. rewrite filter_app, length_app. f_equal.
  rewrite filter_cons, filter_nil. by case_decide.
Qed.

Lemma callBody_marksAgree h c tx : marksAgree tx → marksAgree (callBody h c tx).2.
Proof.
  intros (Hdone & Hcancelled & Hdisputed & Hopened & Hreleased & Hrel).
  unfold marksAgree.
  destruct (Transaction.escrow tx) as [[eid bal held rel] |] eqn:Hesc;
    destruct c; unfold_tx; simpl; rewrite ?Hesc; simpl;
    repeat case_match; simplify_eq; simpl in *;
    try rewrite Hesc in *; simpl in *; simplify_eq; simpl in *;
    rewrite ?countAction_snoc; simpl;
    repeat case_decide; try discriminate;
    (split; [| split; [| split; [| split; [| split]]]]);
    try (intros; simplify_eq; simpl in *; eauto; lia).
Qed.

(** X12. In every transaction of a reachable map the optional fields and
    the log agree with the phase and the escrow account: a [COMPLETED]
    transaction has its completion date, a [CANCELLED] one its cancellation
    date, a [DISPUTED] one its dispute reason; the log holds exactly one
    [ESCROW_OPENED] event when there is an escrow account and none
    otherwise, exactly one [ESCROW_RELEASED] event when the account is
    released and none otherwise; and an account is released only in a
    transaction that was completed. *)
Theorem marks_agree_with_phase_and_escrow s i tx :
  reachable s → s !! i = Some tx → marksAgree tx.
Proof.
  apply (reachable_invariant marksAgree).
  - intros. unfold marksAgree. simpl. by repeat split.
  - apply callBody_marksAgree.
Qed.

(** The completed sale. *)
Lemma marks_agree_with_phase_and_escrow_witness :
  ∃ tx,
    serve Scenario.completed ∅ !! "tx-1" = Some tx ∧
    Transaction.status tx = COMPLETED ∧
    marksAgree tx.
Proof.
  stored_in Scenario.completed tx.
  exists tx. split; [vm_compute; reflexivity |]. split; [reflexivity |].
  apply (marks_agree_with_phase_and_escrow (serve Scenario.completed ∅) "tx-1" tx);
    [apply reachable_serve | vm_compute; reflexivity].
Defined.

Lemma callBody_marked h c tx :
  Forall marked (Transaction.documents tx) →
  Forall marked (Transaction.documents (callBody h c tx).2).
Proof.
  intros Hmarked.
  destruct c; unfold_tx; repeat case_match; simplify_eq; simpl;
    rewrite ?alter_markVerified;
    first [ exact Hmarked
          | apply Forall_app; split; [exact Hmarked |];
            apply Forall_singleton; by split
          | apply Forall_alter; [exact Hmarked |];
            intros ? _ _; unfold marked; simpl; by split ].
Qed.

(** X13. In every transaction of a reachable map the verification marks of
    every document agree with its flag: a verified document names who
    verified it and when, an unverified one names neither. *)
Theorem verification_marks_agree s i tx :
  reachable s → s !! i = Some tx →
  Forall marked (Transaction.documents tx).
Proof.
  apply (reachable_invariant
           (fun tx => Forall marked (Transaction.documents tx))).
  - intros. apply Forall_nil_2.
  - apply callBody_marked.
Qed.

(** Three of the four documents verified. *)
Lemma verification_marks_agree_witness :
  ∃ tx,
    serve Scenario.threeVerified ∅ !! "tx-1" = Some tx ∧
    length (Transaction.documents tx) = 4%nat ∧
    Forall marked (Transaction.documents tx).
Proof.
  stored_in Scenario.threeVerified tx.
  exists tx. split; [vm_compute; reflexivity |]. split; [reflexivity |].
  apply (verification_marks_agree (serve Scenario.threeVerified ∅) "tx-1" tx);
    [apply reachable_serve | vm_compute; reflexivity].
Defined.

Lemma hasVerified_kept k (docs docs' : list Document.t) :
  (∀ j d, docs !! j = Some d → Document.verified d = true →
          docs' !! j = Some d) →
  hasVerified k docs → hasVerified k docs'.
Proof.
  intros Hkept (d & Hin & Hty & Hv).
  apply list_elem_of_lookup_1 in Hin as [j Hj].
  exists d. split; [| done]. eapply list_elem_of_lookup_2. by apply Hkept.
Qed.

(** The required documents stay verified where the verified documents stay
    in place. *)
Lemma areAllRequiredDocumentsVerified_kept tx tx' :
  (∀ j d, Transaction.documents tx !! j = Some d →
          Document.verified d = true →
          Transaction.documents tx' !! j = Some d) →
  areAllRequiredDocumentsVerified tx = true →
  areAllRequiredDocumentsVerified tx' = true.
Proof.
  intros Hkept. rewrite !areAllRequiredDocumentsVerified_iff.
  intros (H1 & H2 & H3 & H4).
  repeat split; by eapply hasVerified_kept.
Qed.

Lemma callBody_verified_kept h c tx j d :
  Transaction.documents tx !! j = Some d →
  Document.verified d = true →
  Transaction.documents (callBody h c tx).2 !! j = Some d.
Proof.
  intros Hj Hd.
  destruct (callBody_documents h c tx)
    as [-> | [(d0 & _ & ->) | (i' & by_ & k & d0 & Hk & Hd0 & ->)]].
  - done.
  - by apply lookup_app_l_Some.
  - apply list_find_Some in Hk as (Hk & _).
    destruct (decide (k = j)) as [-> | Hne]; [congruence |].
    by rewrite list_lookup_alter_ne.
Qed.

Lemma callBody_payable h c tx :
  (Transaction.status tx = PAYMENT_PENDING ∨ Transaction.payments tx ≠ [] →
   areAllRequiredDocumentsVerified tx = true) →
  Transaction.status (callBody h c tx).2 = PAYMENT_PENDING ∨
  Transaction.payments (callBody h c tx).2 ≠ [] →
  areAllRequiredDocumentsVerified (callBody h c tx).2 = true.
Proof.
  intros Hbefore.
  destruct (areAllRequiredDocumentsVerified tx) eqn:Hall.
  { intros _. apply (areAllRequiredDocumentsVerified_kept tx); [| done].
    intros j d. apply callBody_verified_kept. }
  assert (Hstatus : Transaction.status tx ≠ PAYMENT_PENDING)
    by (intros H; assert (false = true); [apply Hbefore; by left | done]).
  assert (Hpayments : Transaction.payments tx = []).
  { destruct (Transaction.payments tx) eqn:Hp; [done |].
    assert (false = true); [| done].
    apply Hbefore. by right. }
  clear Hbefore.
  destruct c; unfold_tx; repeat case_match; simplify_eq; simpl in *;
    rewrite ?Hpayments; simpl;
    try (intros [? | ?]; simplify_eq; done);
    try (intros _; unfold areAllRequiredDocumentsVerified in *; simpl in *;
         done).
  all: match goal with H : bool_decide _ = true |- _ =>
         apply bool_decide_eq_true in H; apply list_elem_of_singleton in H end;
       done.
Qed.

(** X14. Payments follow verification. In every transaction of a reachable
    map: while the phase is [DOCUMENTS_PENDING], some required kind of
    document still lacks a verified document and no payment has been
    recorded; when the phase is [PAYMENT_PENDING], or when any payment has
    been recorded, whatever the phase is by now, each of the four required
    kinds has a verified document. *)
Theorem payments_follow_verification s i tx :
  reachable s → s !! i = Some tx →
  (Transaction.status tx = DOCUMENTS_PENDING →
   areAllRequiredDocumentsVerified tx = false ∧ Transaction.payments tx = []) ∧
  (Transaction.status tx = PAYMENT_PENDING ∨ Transaction.payments tx ≠ [] →
   areAllRequiredDocumentsVerified tx = true).
Proof.
  intros Hreach Hsome.
  assert (Hpayable :
            Transaction.status tx = PAYMENT_PENDING ∨
            Transaction.payments tx ≠ [] →
            areAllRequiredDocumentsVerified tx = true).
  { revert s i tx Hreach Hsome.
    apply (reachable_invariant
             (fun tx => Transaction.status tx = PAYMENT_PENDING ∨
                        Transaction.payments tx ≠ [] →
                        areAllRequiredDocumentsVerified tx = true)).
    - intros h property seller buyer s0 [H | H]; [discriminate | done].
    - apply callBody_payable. }
  split; [| done].
  intros Hpending.
  pose proof (reachable_pending_incomplete s i tx Hreach Hsome Hpending) as Hnot.
  split; [done |].
  destruct (Transaction.payments tx) eqn:Hp; [done |].
  rewrite Hpayable in Hnot; [done | by right].
Qed.

(** The price submitted: payment is awaited and the four required kinds are
    verified. *)
Lemma payments_follow_verification_witness :
  ∃ tx,
    serve Scenario.paymentSubmitted ∅ !! "tx-1" = Some tx ∧
    Transaction.status tx = PAYMENT_PENDING ∧
    areAllRequiredDocumentsVerified tx = true.
Proof.
  stored_in Scenario.paymentSubmitted tx.
  exists tx. split; [vm_compute; reflexivity |]. split; [reflexivity |].
  apply (payments_follow_verification (serve Scenario.paymentSubmitted ∅)
           "tx-1" tx);
    [apply reachable_serve | vm_compute; reflexivity | by left].
Defined.

(** *** Attribution *)

Lemma callBody_attributed h c tx :
  (callBody h c tx).1 = Returned tt →
  ∃ first rest,
    Transaction.auditLog (callBody h c tx).2
    = (Transaction.auditLog tx ++ first :: rest)%list ∧
    AuditEvent.actor first = callActor c ∧
    (length rest ≤ 2)%nat ∧
    Forall (fun e => AuditEvent.actor e = callActor c ∨
                     AuditEvent.actor e = "SYSTEM") rest.
Proof.
  destruct c; unfold_tx; repeat case_match; simplify_eq; simpl;
    try discriminate; intros _;
    do 2 eexists; (split; [rewrite <- ?app_assoc; reflexivity |]); simpl;
    (split; [reflexivity |]); (split; [lia |]);
    repeat (apply List.Forall_cons; [first [by left | by right] |]);
    apply List.Forall_nil.
Qed.

(** X15. Every call that returns leaves a trace under the caller's name:
    it appends between one and three events to the log of its transaction,
    the first in the name of the party the call was made for, the others in
    that name or in the name of [SYSTEM]; [getAuditLog] then returns the
    log so extended. *)
Theorem successful_call_is_attributed h c (s : Store) :
  (invoke h c s).1 = Returned tt →
  ∃ tx first rest,
    s !! callTarget c = Some tx ∧
    getAuditLog (callTarget c) (invoke h c s).2
    = Returned (Transaction.auditLog tx ++ first :: rest)%list ∧
    AuditEvent.actor first = callActor c ∧
    (length rest ≤ 2)%nat ∧
    Forall (fun e => AuditEvent.actor e = callActor c ∨
                     AuditEvent.actor e = "SYSTEM") rest.
Proof.
  destruct (s !! callTarget c) as [tx |] eqn:Htarget.
  - rewrite (invoke_known _ _ _ _ Htarget). cbn [fst snd]. intros Hok.
    destruct (callBody_attributed h c tx Hok)
      as (first & rest & Hlog & Hrest).
    exists tx, first, rest. split; [done |]. split; [| done].
    unfold getAuditLog, getTransaction. by rewrite lookup_insert_eq, Hlog.
  - by rewrite (invoke_unknown _ _ _ Htarget).
Qed.

(** The verification of the fourth document by [notary-1]: the first event
    appended is in that name, at most two follow. *)
Lemma successful_call_is_attributed_witness :
  ∃ tx first rest,
    serve Scenario.threeVerified ∅ !! "tx-1" = Some tx ∧
    (invoke (Scenario.host "-" 9) (VerifyDocument "tx-1" "doc-4" "notary-1")
       (serve Scenario.threeVerified ∅)).1 = Returned tt ∧
    getAuditLog "tx-1"
      (invoke (Scenario.host "-" 9) (VerifyDocument "tx-1" "doc-4" "notary-1")
         (serve Scenario.threeVerified ∅)).2
    = Returned (Transaction.auditLog tx ++ first :: rest)%list ∧
    AuditEvent.actor first = "notary-1" ∧
    (length rest ≤ 2)%nat.
Proof.
  destruct (successful_call_is_attributed (Scenario.host "-" 9)
              (VerifyDocument "tx-1" "doc-4" "notary-1")
              (serve Scenario.threeVerified ∅))
    as (tx & first & rest & Hlookup & Hlog & Hfirst & Hrest & _);
    [vm_compute; reflexivity |].
  exists tx, first, rest. split; [exact Hlookup |].
  split; [vm_compute; reflexivity |]. split; [exact Hlog |].
  split; [exact Hfirst | exact Hrest].
Defined.

(** *** The notary agent *)

Lemma scores_pass t : (MOCK_SCORES t <? CONFIDENCE_THRESHOLDS t)%Z = false.
Proof. by destruct t. Qed.

(** Where identifiers are distinct, [find] returns the document asked
    for. *)
Lemma list_find_distinct_id (docs : list Document.t) k d :
  NoDup (Document.id <$> docs) →
  docs !! k = Some d →
  list_find (fun x => Document.id x = Document.id d) docs = Some (k, d).
Proof.
  intros Hnodup Hk. apply list_find_Some. split; [done |]. split; [done |].
  intros j y Hj Hlt Heq.
  assert ((Document.id <$> docs) !! j = Some (Document.id d))
    by (by rewrite list_lookup_fmap, Hj, <- Heq).
  assert ((Document.id <$> docs) !! k = Some (Document.id d))
    by (by rewrite list_lookup_fmap, Hk).
  assert (j = k) by (by eapply NoDup_lookup). lia.
Qed.

Lemma verifyDocument_body_marks h documentId verifiedBy tx k d :
  list_find (fun x => Document.id x = documentId) (Transaction.documents tx)
  = Some (k, d) →
  Document.verified d = false →
  ∃ tx1,
    verifyDocument_body h documentId verifiedBy tx = (Returned tt, tx1) ∧
    Transaction.documents tx1
    = alter (markVerified verifiedBy (now h)) k (Transaction.documents tx) ∧
    Transaction.payments tx1 = Transaction.payments tx ∧
    Transaction.escrow tx1 = Transaction.escrow tx ∧
    Transaction.status tx1
    = (if areAllRequiredDocumentsVerified tx1 then PAYMENT_PENDING
       else Transaction.status tx).
Proof.
  intros Hfind Hd. unfold_tx. rewrite Hfind, Hd.
  match goal with |- context [areAllRequiredDocumentsVerified ?t] =>
    destruct (areAllRequiredDocumentsVerified t) eqn:Hall end;
    eexists; (split; [reflexivity |]);
    unfold areAllRequiredDocumentsVerified in *; simpl in *;
    rewrite alter_markVerified in *; rewrite Hall; done.
Qed.

Lemma ids_alter_markVerified by_ at_ k (docs : list Document.t) :
  Document.id <$> alter (markVerified by_ at_) k docs = Document.id <$> docs.
Proof.
  apply list_eq. intros j. rewrite !list_lookup_fmap.
  destruct (decide (k = j)) as [-> | Hne].
  - rewrite list_lookup_alter_eq. by destruct (docs !! j).
  - by rewrite list_lookup_alter_ne.
Qed.

Lemma agentMark_verified hosts k d :
  Document.verified (agentMark hosts k d) = true.
Proof. unfold agentMark. by destruct (Document.verified d) eqn:Hd. Qed.

Lemma agentMark_kept hosts k d :
  Document.verified d = true → agentMark hosts k d = d.
Proof. unfold agentMark. by intros ->. Qed.

(** The loop from position [i] on, over documents of distinct
    identifiers. *)
Lemma verifyFrom_distinct hosts fuel :
  ∀ i tx,
    NoDup (Document.id <$> Transaction.documents tx) →
    (length (Transaction.documents tx) ≤ fuel + i)%nat →
    ∃ tx',
      verifyFrom hosts fuel i tx = (None, tx') ∧
      (∀ k, Transaction.documents tx' !! k
            = if decide (i ≤ k)%nat
              then agentMark hosts k <$> Transaction.documents tx !! k
              else Transaction.documents tx !! k) ∧
      Transaction.payments tx' = Transaction.payments tx ∧
      Transaction.escrow tx' = Transaction.escrow tx ∧
      (allVerified (drop i (Transaction.documents tx)) → tx' = tx) ∧
      (¬ allVerified (drop i (Transaction.documents tx)) →
       Transaction.status tx'
       = if areAllRequiredDocumentsVerified tx' then PAYMENT_PENDING
         else Transaction.status tx).
Proof.
  induction fuel as [| fuel IH]; intros i tx Hnodup Hlen.
  - exists tx. simpl. split; [done |]. split.
    { intros k. destruct (decide (i ≤ k)%nat); [| done].
      rewrite lookup_ge_None_2 by lia. done. }
    split; [done |]. split; [done |]. split; [done |].
    intros Hnot. exfalso. apply Hnot. rewrite drop_ge by lia. constructor.
  - simpl. destruct (Transaction.documents tx !! i) as [d |] eqn:Hi.
    2:{ exists tx. split; [done |]. split.
        { intros k. destruct (decide (i ≤ k)%nat); [| done].
          apply lookup_ge_None_1 in Hi.
          rewrite lookup_ge_None_2 by lia. done. }
        split; [done |]. split; [done |]. split; [done |].
        intros Hnot. exfalso. apply Hnot.
        apply lookup_ge_None_1 in Hi. rewrite drop_ge by lia. constructor. }
    assert (Hdrop : drop i (Transaction.documents tx)
                    = d :: drop (S i) (Transaction.documents tx))
      by (by apply drop_S).
    destruct (Document.verified d) eqn:Hd.
    + destruct (IH (S i) tx Hnodup ltac:(lia))
        as (tx' & Hrun & Hdocs & Hpay & Hesc & Hsame & Hstatus).
      exists tx'. split; [done |]. split.
      { intros k. rewrite Hdocs.
        destruct (decide (S i ≤ k)%nat), (decide (i ≤ k)%nat);
          try done; try lia.
        assert (k = i) as -> by lia. rewrite Hi. simpl.
        by rewrite agentMark_kept. }
      split; [done |]. split; [done |]. rewrite Hdrop. split.
      * intros Hall. apply Hsame. by apply Forall_cons in Hall as [_ ?].
      * intros Hnot. apply Hstatus. intros Hall. apply Hnot.
        by apply Forall_cons.
    + rewrite scores_pass.
      destruct (verifyDocument_body_marks (hosts i) (Document.id d)
                  AI_NOTARY_ID tx i d)
        as (tx1 & Hcall & Hdocs1 & Hpay1 & Hesc1 & Hst1);
        [by apply list_find_distinct_id | done |].
      rewrite Hcall.
      destruct (IH (S i) tx1)
        as (tx' & Hrun & Hdocs & Hpay & Hesc & Hsame & Hstatus).
      { by rewrite Hdocs1, ids_alter_markVerified. }
      { rewrite Hdocs1, length_alter. lia. }
      exists tx'. split; [done |]. split.
      { intros k. rewrite Hdocs, Hdocs1.
        destruct (decide (S i ≤ k)%nat), (decide (i ≤ k)%nat);
          try done; try lia.
        - by rewrite list_lookup_alter_ne by lia.
        - assert (k = i) as -> by lia.
          rewrite list_lookup_alter_eq, Hi. simpl.
          unfold agentMark. by rewrite Hd.
        - by rewrite list_lookup_alter_ne by lia. }
      split; [congruence |]. split; [congruence |]. split.
      { rewrite Hdrop. intros Hall. apply Forall_cons in Hall as [Hv _].
        congruence. }
      intros _.
      destruct (decide (allVerified (drop (S i) (Transaction.documents tx1))))
        as [Hall | Hnot].
      * by rewrite (Hsame Hall).
      * rewrite (Hstatus Hnot).
        destruct (areAllRequiredDocumentsVerified tx') eqn:Hall'; [done |].
        rewrite Hst1.
        destruct (areAllRequiredDocumentsVerified tx1) eqn:Hall1; [| done].
        rewrite (areAllRequiredDocumentsVerified_kept tx1 tx') in Hall';
          [done | | done].
        intros j x Hj Hx. rewrite Hdocs, Hj.
        destruct (decide (S i ≤ j)%nat); [| done].
        simpl. by rewrite agentMark_kept.
Qed.

Lemma verifyFrom_never_rejects hosts fuel :
  ∀ i tx type score threshold,
    (verifyFrom hosts fuel i tx).1 ≠ Some (DocumentRejected type score threshold).
Proof.
  induction fuel as [| fuel IH]; intros i tx type score threshold; simpl.
  - done.
  - destruct (Transaction.documents tx !! i) as [d |]; [| done].
    destruct (Document.verified d); [apply IH |].
    rewrite scores_pass.
    destruct (verifyDocument_body _ _ _ tx) as [[[] | e] tx1]; [apply IH | done].
Qed.

(** X16. The agent rejects no document: the score of every kind of
    document reaches the threshold of that kind, so whatever the
    transaction holds, [verifyAllDocuments] never throws its own rejection
    error. *)
Theorem agent_rejects_nothing hosts transactionId (s : Store) type score threshold :
  (∀ t, (CONFIDENCE_THRESHOLDS t ≤ MOCK_SCORES t)%Z) ∧
  (verifyAllDocuments hosts transactionId s).1
  ≠ Some (DocumentRejected type score threshold).
Proof.
  split; [by intros [] |].
  unfold verifyAllDocuments. destruct (getTransaction transactionId s) as [tx | e];
    [| done].
  pose proof (verifyFrom_never_rejects hosts
                (length (Transaction.documents tx)) 0 tx type score threshold) as H.
  by destruct (verifyFrom _ _ _ tx).
Qed.

(** X17. On a known transaction whose documents have distinct identifiers
    [verifyAllDocuments] returns, in whatever phase the transaction is
    (cancelled and completed ones included). It leaves every document
    verified: those already verified as they were, the others marked as
    verified by the agent. The payments and the escrow account are
    untouched. Where there was nothing to verify the transaction is left
    exactly as it was; otherwise the phase afterwards is [PAYMENT_PENDING]
    if each of the four required kinds then has a verified document, and
    the phase before the call if not. *)
Theorem agent_verifies_every_document hosts i (s : Store) tx :
  s !! i = Some tx →
  NoDup (Document.id <$> Transaction.documents tx) →
  ∃ tx',
    verifyAllDocuments hosts i s = (None, <[i := tx']> s) ∧
    Transaction.documents tx' = imap (agentMark hosts) (Transaction.documents tx) ∧
    allVerified (Transaction.documents tx') ∧
    Transaction.payments tx' = Transaction.payments tx ∧
    Transaction.escrow tx' = Transaction.escrow tx ∧
    (allVerified (Transaction.documents tx) → tx' = tx) ∧
    (¬ allVerified (Transaction.documents tx) →
     Transaction.status tx'
     = if areAllRequiredDocumentsVerified tx' then PAYMENT_PENDING
       else Transaction.status tx).
Proof.
  intros Hsome Hnodup.
  destruct (verifyFrom_distinct hosts (length (Transaction.documents tx)) 0 tx
              Hnodup ltac:(lia))
    as (tx' & Hrun & Hdocs & Hpay & Hesc & Hsame & Hstatus).
  assert (Heq : Transaction.documents tx'
                = imap (agentMark hosts) (Transaction.documents tx)).
  { apply list_eq. intros k. rewrite Hdocs, list_lookup_imap.
    destruct (decide (0 ≤ k)%nat); [| lia]. done. }
  exists tx'. unfold verifyAllDocuments, getTransaction. rewrite Hsome, Hrun.
  split; [done |]. split; [done |]. split.
  { rewrite Heq. apply Forall_lookup. intros k x.
    rewrite list_lookup_imap.
    destruct (Transaction.documents tx !! k); simpl; [| done].
    intros [= <-]. apply agentMark_verified. }
  split; [done |]. split; [done |]. by split.
Qed.

(** The agent on the four uploaded documents takes the transaction to
    [PAYMENT_PENDING]; on the cancelled transaction of the demo, with two
    documents, it returns as well and the transaction stays [CANCELLED]. *)
Lemma agent_verifies_every_document_witness :
  (∃ tx tx',
     serve Scenario.uploaded ∅ !! "tx-1" = Some tx ∧
     Transaction.status tx = DOCUMENTS_PENDING ∧
     verifyAllDocuments Scenario.agentHosts "tx-1" (serve Scenario.uploaded ∅)
     = (None, <["tx-1" := tx']> (serve Scenario.uploaded ∅)) ∧
     allVerified (Transaction.documents tx') ∧
     Transaction.status tx' = PAYMENT_PENDING) ∧
  (∃ tx tx',
     serve Scenario.cancelledEarly ∅ !! "tx-1" = Some tx ∧
     Transaction.status tx = CANCELLED ∧
     verifyAllDocuments Scenario.agentHosts "tx-1"
       (serve Scenario.cancelledEarly ∅)
     = (None, <["tx-1" := tx']> (serve Scenario.cancelledEarly ∅)) ∧
     allVerified (Transaction.documents tx') ∧
     Transaction.status tx' = CANCELLED).
Proof.
  split.
  - stored_in Scenario.uploaded tx.
    destruct (agent_verifies_every_document Scenario.agentHosts "tx-1"
                (serve Scenario.uploaded ∅) tx)
      as (tx' & Hcall & Hdocs & Hall & _ & _ & _ & Hstatus);
      [vm_compute; reflexivity
      | apply (bool_decide_unpack _); vm_compute; exact I |].
    exists tx, tx'. split; [vm_compute; reflexivity |]. split; [reflexivity |].
    split; [exact Hcall |]. split; [exact Hall |].
    rewrite Hstatus.
    + unfold areAllRequiredDocumentsVerified. rewrite Hdocs.
      vm_compute. reflexivity.
    + intros Hnot. apply Forall_cons in Hnot as [Hnot _]. discriminate Hnot.
  - stored_in Scenario.cancelledEarly tx.
    destruct (agent_verifies_every_document Scenario.agentHosts "tx-1"
                (serve Scenario.cancelledEarly ∅) tx)
      as (tx' & Hcall & Hdocs & Hall & _ & _ & _ & Hstatus);
      [vm_compute; reflexivity
      | apply (bool_decide_unpack _); vm_compute; exact I |].
    exists tx, tx'. split; [vm_compute; reflexivity |]. split; [reflexivity |].
    split; [exact Hcall |]. split; [exact Hall |].
    rewrite Hstatus.
    + unfold areAllRequiredDocumentsVerified. rewrite Hdocs.
      vm_compute. reflexivity.
    + intros Hnot. apply Forall_cons in Hnot as [Hnot _]. discriminate Hnot.
Defined.
